(** * SkyMentor database setup (db_setup.py): a shallow embedding

    The script is a straight-line provisioning program: it reads its
    configuration from the environment, opens one psycopg2 connection,
    sends a fixed sequence of SQL statements and prints a report.  The
    embedding has three layers:

    - [Py]: the few Python library functions the script calls
      ([str.lower], [int], [str.join], the [hashlib] module namespace);
    - [Sql] and [Pg]: the statements the script sends, as a syntax tree,
      and the part of PostgreSQL they exercise (catalog of enumerated
      types, tables with their constraints, indexes, rows);
    - the script itself, method by method, in a state-and-exception
      monad whose state survives an exception, as Python's does. *)

From Stdlib Require Import String Ascii List ZArith Bool Arith Lia.
From Stdlib Require Import DecimalString.
Import ListNotations.
Open Scope string_scope.

Set Implicit Arguments.

(* ===================================================================== *)
(** * Python library functions used by the script *)
(* ===================================================================== *)

Module Py.

(** Membership in a list of strings ([x in l]). *)
Definition mem (x : string) (l : list string) : bool :=
  existsb (String.eqb x) l.

(** Lookup in an insertion-ordered dict with string keys. *)
Fixpoint lookup {A : Type} (k : string) (d : list (string * A)) : option A :=
  match d with
  | [] => None
  | (k', v) :: d' => if String.eqb k k' then Some v else lookup k d'
  end.

(** [d[k] = v] on an insertion-ordered dict: an existing key keeps its
    position, a new key goes last. *)
Fixpoint setitem {A : Type} (k : string) (v : A) (d : list (string * A))
  : list (string * A) :=
  match d with
  | [] => [(k, v)]
  | (k', v') :: d' =>
      if String.eqb k k' then (k, v) :: d' else (k', v') :: setitem k v d'
  end.

Definition lower_ascii (c : ascii) : ascii :=
  let n := nat_of_ascii c in
  if andb (65 <=? n)%nat (n <=? 90)%nat then ascii_of_nat (n + 32) else c.

(** [str.lower()] on the ASCII range; other bytes are left alone. *)
Fixpoint lower (s : string) : string :=
  match s with
  | EmptyString => EmptyString
  | String c s' => String (lower_ascii c) (lower s')
  end.

(** [sep.join(l)]. *)
Definition join (sep : string) (l : list string) : string :=
  String.concat sep l.


(** [str(n)] for an integer. *)
Definition str_of_Z (z : Z) : string := NilZero.string_of_int (Z.to_int z).
Definition str_of_nat (n : nat) : string := str_of_Z (Z.of_nat n).

(** ** [int(s)] for a string, base 10

    Surrounding white space is stripped, one sign is allowed, and the
    digits may be separated by single underscores.  Only ASCII digits
    are recognised here. *)

Definition is_space (c : ascii) : bool :=
  let n := nat_of_ascii c in
  orb (n =? 32)%nat (andb (9 <=? n)%nat (n <=? 13)%nat).

Definition digit_of (c : ascii) : option Z :=
  let n := nat_of_ascii c in
  if andb (48 <=? n)%nat (n <=? 57)%nat then Some (Z.of_nat (n - 48)) else None.

Fixpoint lstrip (s : string) : string :=
  match s with
  | String c s' => if is_space c then lstrip s' else s
  | EmptyString => EmptyString
  end.

Fixpoint all_space (s : string) : bool :=
  match s with
  | EmptyString => true
  | String c s' => andb (is_space c) (all_space s')
  end.

(** [digits acc after_digit s]: reads the digit string; [after_digit]
    says whether the previous character was a digit, which is when an
    underscore or the end may come. *)
Fixpoint digits (acc : Z) (after_digit : bool) (s : string) : option Z :=
  match s with
  | EmptyString => if after_digit then Some acc else None
  | String c s' =>
      match digit_of c with
      | Some d => digits (10 * acc + d) true s'
      | None =>
          if Ascii.eqb c "_"%char then
            (if after_digit then digits acc false s' else None)
          else if andb after_digit (all_space s) then Some acc
          else None
      end
  end.

Definition int_of_str (s : string) : option Z :=
  match lstrip s with
  | String c s' =>
      if Ascii.eqb c "-"%char then option_map Z.opp (digits 0 false s')
      else if Ascii.eqb c "+"%char then digits 0 false s'
      else digits 0 false (String c s')
  | EmptyString => None
  end.

(** ** Exceptions

    [SystemExit] and [KeyboardInterrupt] derive from [BaseException]
    only; the others derive from [Exception].  [Psycopg2Error] stands for
    [psycopg2.Error] and its subclasses. *)
Inductive exn : Type :=
| SystemExit (code : Z)
| KeyboardInterrupt
| AttributeError (msg : string)
| KeyError (key : string)
| IndexError (msg : string)
| TypeError (msg : string)
| ValueError (msg : string)
| EOFError
| Psycopg2Error (msg : string).

(** [isinstance(e, Exception)]. *)
Definition is_Exception (e : exn) : bool :=
  match e with
  | SystemExit _ | KeyboardInterrupt => false
  | _ => true
  end.

(** [isinstance(e, psycopg2.Error)]. *)
Definition is_psycopg2_Error (e : exn) : bool :=
  match e with
  | Psycopg2Error _ => true
  | _ => false
  end.

(** [str(e)]. *)
Definition str_of_exn (e : exn) : string :=
  match e with
  | SystemExit c => str_of_Z c
  | KeyboardInterrupt => EmptyString
  | AttributeError m => m
  | KeyError k => k
  | IndexError m => m
  | TypeError m => m
  | ValueError m => m
  | EOFError => EmptyString
  | Psycopg2Error m => m
  end.


(** ** The [hashlib] module

    The public names of the module.  What each of them computes is left
    to a parameter of the script section: the script only ever looks a
    name up. *)
Definition hashlib_dir : list string :=
  [ "new"; "algorithms_guaranteed"; "algorithms_available";
    "md5"; "sha1"; "sha224"; "sha256"; "sha384"; "sha512";
    "blake2b"; "blake2s";
    "sha3_224"; "sha3_256"; "sha3_384"; "sha3_512";
    "shake_128"; "shake_256";
    "pbkdf2_hmac"; "scrypt"; "file_digest" ].

Inductive pyval : Type :=
| PyBytes (b : string)
| PyStr (s : string)
| PyInt (z : Z).

Definition callable : Type := list pyval -> exn + string.

(** [getattr(hashlib, name)]. *)
Definition hashlib_getattr (impl : string -> callable) (name : string)
  : exn + callable :=
  if mem name hashlib_dir then inr (impl name)
  else inl (AttributeError
              ("module 'hashlib' has no attribute '" ++ name ++ "'")).

End Py.

(* ===================================================================== *)
(** * The SQL statements the script sends *)
(* ===================================================================== *)

Module Sql.

Inductive value : Type :=
| VNull
| VText (s : string)
| VInt (z : Z)
| VBool (b : bool)
| VGenUuid (n : nat)          (* a value produced by gen_random_uuid() *)
| VNow                        (* CURRENT_TIMESTAMP *)
| VToday (offset : Z).        (* CURRENT_DATE + offset *)

Definition value_eqb (a b : value) : bool :=
  match a, b with
  | VNull, VNull => true
  | VText x, VText y => String.eqb x y
  | VInt x, VInt y => Z.eqb x y
  | VBool x, VBool y => Bool.eqb x y
  | VGenUuid x, VGenUuid y => Nat.eqb x y
  | VNow, VNow => true
  | VToday x, VToday y => Z.eqb x y
  | _, _ => false
  end.

Inductive sqltype : Type :=
| UUID | TEXT | INTEGER | BOOLEAN | TIMESTAMP | DATE | TIME | JSONB
| Named (n : string).         (* a user-defined type, here an enum *)

Inductive dflt : Type :=
| gen_random_uuid
| CURRENT_TIMESTAMP
| Lit (v : value).

Inductive constr : Type :=
| PRIMARY_KEY
| NOT_NULL
| UNIQUE
| DEFAULT (d : dflt)
| REFERENCES (t c : string).

Record column : Type := Col {
  cname : string;
  ctype : sqltype;
  cconstrs : list constr
}.

(** A value expression in a VALUES list: a bound parameter ([%s]), a
    literal written in the statement, or [CURRENT_DATE + n]. *)
Inductive expr : Type :=
| Param (v : value)
| Literal (v : value)
| CurrentDatePlus (n : Z).

Inductive stmt : Type :=
| DropTableIfExistsCascade (t : string)
| DropTypeIfExistsCascade (n : string)
| CreateTypeEnum (n : string) (labels : list string)
| CreateTable (t : string) (cols : list column)
| CreateIndex (name t : string) (cols : list string)
| InsertInto (t : string) (cols : list string) (vals : list expr)
| SelectCount (t : string)
  (* SELECT col, COUNT( * ) as count FROM t WHERE col IN keep
     GROUP BY col ORDER BY col *)
| SelectGroupCount (t col : string) (keep : list string).

(** Statements that only read. *)
Definition read_only (q : stmt) : bool :=
  match q with
  | SelectCount _ | SelectGroupCount _ _ _ => true
  | _ => false
  end.

Definition is_not_null (c : column) : bool :=
  existsb (fun k => match k with PRIMARY_KEY | NOT_NULL => true | _ => false end)
          (cconstrs c).

Definition is_unique (c : column) : bool :=
  existsb (fun k => match k with PRIMARY_KEY | UNIQUE => true | _ => false end)
          (cconstrs c).

Definition is_primary (c : column) : bool :=
  existsb (fun k => match k with PRIMARY_KEY => true | _ => false end)
          (cconstrs c).

Fixpoint default_of (ks : list constr) : option dflt :=
  match ks with
  | [] => None
  | DEFAULT d :: _ => Some d
  | _ :: ks' => default_of ks'
  end.

(** The tables a column's REFERENCES clauses name, with the column. *)
Fixpoint references_of (ks : list constr) : list (string * string) :=
  match ks with
  | [] => []
  | REFERENCES t c :: ks' => (t, c) :: references_of ks'
  | _ :: ks' => references_of ks'
  end.

End Sql.

(* ===================================================================== *)
(** * The part of PostgreSQL the statements exercise *)
(* ===================================================================== *)

Module Pg.
Import Py Sql.

Definition row : Type := list (string * value).

Record table : Type := Table {
  t_cols : list column;
  t_rows : list row
}.

Record database : Type := Db {
  db_types : list (string * list string);       (* enum name, labels *)
  db_tables : list (string * table);
  db_indexes : list (string * (string * list string)); (* name, table, columns *)
  db_serial : nat                                (* gen_random_uuid() draws *)
}.

Definition empty_db : database := Db [] [] [] 0.

(** The key words that may not be used bare as the name of a table, a
    column, a type or an index (PostgreSQL's SQL Key Words appendix: the
    reserved words and those reserved except as function or type). *)
Definition reserved_words : list string :=
  [ "all"; "analyse"; "analyze"; "and"; "any"; "array"; "as"; "asc";
    "asymmetric"; "both"; "case"; "cast"; "check"; "collate"; "column";
    "constraint"; "create"; "current_catalog"; "current_date";
    "current_role"; "current_time"; "current_timestamp"; "current_user";
    "default"; "deferrable"; "desc"; "distinct"; "do"; "else"; "end";
    "except"; "false"; "fetch"; "for"; "foreign"; "from"; "grant";
    "group"; "having"; "in"; "initially"; "intersect"; "into"; "lateral";
    "leading"; "limit"; "localtime"; "localtimestamp"; "not"; "null";
    "offset"; "on"; "only"; "or"; "order"; "placing"; "primary";
    "references"; "returning"; "select"; "session_user"; "some";
    "symmetric"; "system_user"; "table"; "then"; "to"; "trailing";
    "true"; "union"; "unique"; "user"; "using"; "variadic"; "when";
    "where"; "window"; "with";
    "authorization"; "binary"; "collation"; "concurrently"; "cross";
    "current_schema"; "freeze"; "full"; "ilike"; "inner"; "is";
    "isnull"; "join"; "left"; "like"; "natural"; "notnull"; "outer";
    "overlaps"; "right"; "similar"; "tablesample"; "verbose" ].

(** An unquoted identifier is folded to lower case and must not be one
    of the reserved key words. *)
Definition ident_ok (name : string) : bool :=
  negb (mem (lower name) reserved_words).

Definition err {A : Type} (msg : string) : exn + A := inl (Psycopg2Error msg).

Definition remove_key {A : Type} (k : string) (l : list (string * A))
  : list (string * A) :=
  filter (fun p => negb (String.eqb (fst p) k)) l.

Fixpoint nodupb (l : list string) : bool :=
  match l with
  | [] => true
  | x :: l' => andb (negb (mem x l')) (nodupb l')
  end.

Definition find_col (c : string) (cols : list column) : option column :=
  find (fun k => String.eqb (cname k) c) cols.

(** ** DROP TABLE IF EXISTS t CASCADE

    Removes the table with its rows and indexes; CASCADE removes the
    foreign-key constraints of other tables that point to it.  A name
    that is no table is skipped. *)
Definition strip_fk (t : string) (c : column) : column :=
  Col (cname c) (ctype c)
      (filter (fun k => match k with
                        | REFERENCES p _ => negb (String.eqb p t)
                        | _ => true
                        end) (cconstrs c)).

Definition drop_table (t : string) (db : database) : database :=
  Db (db_types db)
     (map (fun p => (fst p, Table (map (strip_fk t) (t_cols (snd p)))
                                  (t_rows (snd p))))
          (remove_key t (db_tables db)))
     (filter (fun ix => negb (String.eqb (fst (snd ix)) t)) (db_indexes db))
     (db_serial db).

(** ** DROP TYPE IF EXISTS n CASCADE

    Removes the type; CASCADE removes every column of that type, with
    its values and the indexes over it. *)
Definition uses_type (n : string) (c : column) : bool :=
  match ctype c with
  | Named m => String.eqb m n
  | _ => false
  end.

Definition drop_type_cols (n : string) (tb : table) : table :=
  let gone := map cname (filter (uses_type n) (t_cols tb)) in
  Table (filter (fun c => negb (uses_type n c)) (t_cols tb))
        (map (filter (fun kv : string * value => negb (mem (fst kv) gone)))
             (t_rows tb)).

Definition index_alive (tables : list (string * table))
           (ix : string * (string * list string)) : bool :=
  match lookup (fst (snd ix)) tables with
  | None => false
  | Some tb => forallb (fun c => mem c (map cname (t_cols tb))) (snd (snd ix))
  end.

Definition drop_type (n : string) (db : database) : database :=
  let tables := map (fun p => (fst p, drop_type_cols n (snd p))) (db_tables db) in
  Db (remove_key n (db_types db))
     tables
     (filter (index_alive tables) (db_indexes db))
     (db_serial db).

(** ** CREATE TYPE n AS ENUM (labels) *)
Definition create_type (n : string) (labels : list string) (db : database)
  : exn + database :=
  if negb (ident_ok n) then err ("syntax error at or near " ++ n)
  else if orb (mem n (map fst (db_types db))) (mem n (map fst (db_tables db)))
  then err ("type " ++ n ++ " already exists")
  else if negb (nodupb labels) then err "enum label used more than once"
  else inr (Db (db_types db ++ [(n, labels)]) (db_tables db)
               (db_indexes db) (db_serial db)).

(** ** CREATE TABLE t (cols) *)

(** The type of a column must be built in or an existing type, and a
    literal default of an enum column must be one of its labels. *)
Definition col_type_ok (db : database) (c : column) : bool :=
  match ctype c with
  | Named n =>
      match lookup n (db_types db) with
      | None => false
      | Some labels =>
          match default_of (cconstrs c) with
          | Some (Lit (VText l)) => mem l labels
          | _ => true
          end
      end
  | _ => true
  end.

(** A REFERENCES clause must name a unique column of an existing table
    (or of the table being created). *)
Definition fk_target_ok (db : database) (t : string) (cols : list column)
           (fk : string * string) : bool :=
  let target := if String.eqb (fst fk) t then Some cols
                else option_map t_cols (lookup (fst fk) (db_tables db)) in
  match target with
  | None => false
  | Some pcols =>
      match find_col (snd fk) pcols with
      | Some pc => is_unique pc
      | None => false
      end
  end.

Definition create_table (t : string) (cols : list column) (db : database)
  : exn + database :=
  if negb (ident_ok t) then err ("syntax error at or near " ++ t)
  else match find (fun c => negb (ident_ok (cname c))) cols with
  | Some c => err ("syntax error at or near " ++ cname c)
  | None =>
  if orb (mem t (map fst (db_tables db)))
         (orb (mem t (map fst (db_indexes db))) (mem t (map fst (db_types db))))
  then err ("relation " ++ t ++ " already exists")
  else if negb (nodupb (map cname cols))
  then err "column specified more than once"
  else if (1 <? length (filter is_primary cols))%nat
  then err "multiple primary keys are not allowed"
  else if negb (forallb (col_type_ok db) cols)
  then err "type does not exist or invalid input value for enum"
  else if negb (forallb (fun c => forallb (fk_target_ok db t cols)
                                          (references_of (cconstrs c))) cols)
  then err "referenced relation or unique column does not exist"
  else inr (Db (db_types db) (db_tables db ++ [(t, Table cols [])])
               (db_indexes db) (db_serial db))
  end.

(** ** CREATE INDEX name ON t (cols) *)
Definition create_index (name t : string) (cols : list string) (db : database)
  : exn + database :=
  if negb (ident_ok name) then err ("syntax error at or near " ++ name)
  else if orb (mem name (map fst (db_indexes db)))
              (mem name (map fst (db_tables db)))
  then err ("relation " ++ name ++ " already exists")
  else match lookup t (db_tables db) with
  | None => err ("relation " ++ t ++ " does not exist")
  | Some tb =>
      if forallb (fun c => mem c (map cname (t_cols tb))) cols
      then inr (Db (db_types db) (db_tables db)
                   (db_indexes db ++ [(name, (t, cols))]) (db_serial db))
      else err "column does not exist"
  end.

(** ** INSERT INTO t (cols) VALUES (vals) *)
Definition eval_expr (e : expr) : value :=
  match e with
  | Param v => v
  | Literal v => v
  | CurrentDatePlus n => VToday n
  end.

(** The new row: for each column of the table the value given for it,
    or else its default, or else NULL. *)
Fixpoint fill (cols : list column) (given : list (string * value))
         (serial : nat) : row * nat :=
  match cols with
  | [] => ([], serial)
  | c :: cols' =>
      match lookup (cname c) given with
      | Some v =>
          let (r, n) := fill cols' given serial in ((cname c, v) :: r, n)
      | None =>
          match default_of (cconstrs c) with
          | Some gen_random_uuid =>
              let (r, n) := fill cols' given (S serial) in
              ((cname c, VGenUuid serial) :: r, n)
          | Some CURRENT_TIMESTAMP =>
              let (r, n) := fill cols' given serial in ((cname c, VNow) :: r, n)
          | Some (Lit v) =>
              let (r, n) := fill cols' given serial in ((cname c, v) :: r, n)
          | None =>
              let (r, n) := fill cols' given serial in ((cname c, VNull) :: r, n)
          end
      end
  end.

Definition field (c : string) (r : row) : value :=
  match lookup c r with
  | Some v => v
  | None => VNull
  end.

Definition is_null (v : value) : bool :=
  match v with
  | VNull => true
  | _ => false
  end.

Definition not_null_ok (r : row) (c : column) : bool :=
  negb (andb (is_not_null c) (is_null (field (cname c) r))).

Definition enum_ok (db : database) (r : row) (c : column) : bool :=
  match ctype c with
  | Named n =>
      match lookup n (db_types db), field (cname c) r with
      | Some _, VNull => true
      | Some labels, VText l => mem l labels
      | _, _ => false
      end
  | _ => true
  end.

Definition unique_ok (tb : table) (r : row) (c : column) : bool :=
  let v := field (cname c) r in
  negb (andb (is_unique c)
             (andb (negb (is_null v))
                   (existsb (fun r' => value_eqb (field (cname c) r') v)
                            (t_rows tb)))).

Definition fk_ok (db : database) (r : row) (c : column) : bool :=
  let v := field (cname c) r in
  forallb (fun fk : string * string =>
             orb (is_null v)
                 match lookup (fst fk) (db_tables db) with
                 | None => false
                 | Some parent =>
                     existsb (fun r' => value_eqb (field (snd fk) r') v)
                             (t_rows parent)
                 end)
          (references_of (cconstrs c)).

Definition set_table (t : string) (tb : table) (db : database) (serial : nat)
  : database :=
  Db (db_types db) (setitem t tb (db_tables db)) (db_indexes db) serial.

Definition insert (t : string) (cols : list string) (vals : list expr)
           (db : database) : exn + database :=
  match lookup t (db_tables db) with
  | None => err ("relation " ++ t ++ " does not exist")
  | Some tb =>
      if negb (length cols =? length vals)%nat
      then err "INSERT has a different number of expressions and target columns"
      else if negb (forallb (fun c => mem c (map cname (t_cols tb))) cols)
      then err "column does not exist"
      else if negb (nodupb cols)
      then err "column specified more than once"
      else
        let (r, serial) := fill (t_cols tb) (combine cols (map eval_expr vals))
                                (db_serial db) in
        if negb (forallb (not_null_ok r) (t_cols tb))
        then err "null value violates not-null constraint"
        else if negb (forallb (enum_ok db r) (t_cols tb))
        then err "invalid input value for enum"
        else if negb (forallb (unique_ok tb r) (t_cols tb))
        then err "duplicate key value violates unique constraint"
        else if negb (forallb (fk_ok db r) (t_cols tb))
        then err "insert violates foreign key constraint"
        else inr (set_table t (Table (t_cols tb) (t_rows tb ++ [r])) db serial)
  end.

(** ** SELECT COUNT( * ) FROM t *)
Definition select_count (t : string) (db : database) : exn + list row :=
  match lookup t (db_tables db) with
  | None => err ("relation " ++ t ++ " does not exist")
  | Some tb => inr [[("count", VInt (Z.of_nat (length (t_rows tb))))]]
  end.

(** ** SELECT col, COUNT( * ) as count FROM t WHERE col IN keep
       GROUP BY col ORDER BY col

    An enum column sorts in the order its labels were declared; a text
    column sorts bytewise. *)
Definition is_text (k : string) (v : value) : bool :=
  match v with
  | VText s => String.eqb s k
  | _ => false
  end.

Definition count_key (col k : string) (rows : list row) : nat :=
  length (filter (fun r => is_text k (field col r)) rows).

Fixpoint insert_sorted (k : string) (l : list string) : list string :=
  match l with
  | [] => [k]
  | x :: l' =>
      if String.eqb k x then l
      else if String.leb k x then k :: l
      else x :: insert_sorted k l'
  end.

Definition text_keys (col : string) (rows : list row) : list string :=
  fold_right (fun r acc => match field col r with
                           | VText s => insert_sorted s acc
                           | _ => acc
                           end) [] rows.

Definition group_rows (col : string) (order keep : list string)
           (rows : list row) : list row :=
  flat_map (fun k =>
              let n := count_key col k rows in
              if (n =? 0)%nat then []
              else [[(col, VText k); ("count", VInt (Z.of_nat n))]])
           (filter (fun k => mem k keep) order).

Definition select_group_count (t col : string) (keep : list string)
           (db : database) : exn + list row :=
  match lookup t (db_tables db) with
  | None => err ("relation " ++ t ++ " does not exist")
  | Some tb =>
      match find_col col (t_cols tb) with
      | None => err ("column " ++ col ++ " does not exist")
      | Some c =>
          match ctype c with
          | Named n =>
              match lookup n (db_types db) with
              | None => err ("type " ++ n ++ " does not exist")
              | Some labels =>
                  if forallb (fun k => mem k labels) keep
                  then inr (group_rows col labels keep (t_rows tb))
                  else err "invalid input value for enum"
              end
          | _ => inr (group_rows col (text_keys col (t_rows tb)) keep (t_rows tb))
          end
      end
  end.

(** ** One statement, in auto-commit mode

    The new database and the rows of the result set, or the error. *)
Definition execute (q : stmt) (db : database) : exn + (database * list row) :=
  match q with
  | DropTableIfExistsCascade t => inr (drop_table t db, [])
  | DropTypeIfExistsCascade n => inr (drop_type n db, [])
  | CreateTypeEnum n labels =>
      match create_type n labels db with
      | inl e => inl e
      | inr db' => inr (db', [])
      end
  | CreateTable t cols =>
      match create_table t cols db with
      | inl e => inl e
      | inr db' => inr (db', [])
      end
  | CreateIndex name t cols =>
      match create_index name t cols db with
      | inl e => inl e
      | inr db' => inr (db', [])
      end
  | InsertInto t cols vals =>
      match insert t cols vals db with
      | inl e => inl e
      | inr db' => inr (db', [])
      end
  | SelectCount t =>
      match select_count t db with
      | inl e => inl e
      | inr rows => inr (db, rows)
      end
  | SelectGroupCount t col keep =>
      match select_group_count t col keep db with
      | inl e => inl e
      | inr rows => inr (db, rows)
      end
  end.

Definition has_table (t : string) (db : database) : bool :=
  mem t (map fst (db_tables db)).

Definition has_type (n : string) (db : database) : bool :=
  mem n (map fst (db_types db)).

Definition rows_of (t : string) (db : database) : list row :=
  match lookup t (db_tables db) with
  | Some tb => t_rows tb
  | None => []
  end.

End Pg.

(* ===================================================================== *)
(** * The process, the driver and the monad of the script *)
(* ===================================================================== *)

Import Py Sql Pg.

(** [connection_params], the dict built by [__init__]. *)
Record params : Type := Params {
  host : string;
  port : Z;
  database : option string;
  user : option string;
  password : option string
}.

Inductive cursor_factory : Type := TupleCursor | RealDictCursor.

(** A psycopg2 cursor: its handle, the connection it belongs to, the
    row type it builds, and the rows of the last result set not yet
    fetched ([None] when the last statement returned no result set). *)
Record pgcursor : Type := Cursor {
  cur_id : nat;
  cur_conn : nat;
  cur_factory : cursor_factory;
  cur_rows : option (list row)
}.

(** A fetched row: a tuple for the default cursor, a dict keyed by
    column name for [RealDictCursor]. *)
Inductive pyrow : Type :=
| RowTuple (vs : list value)
| RowDict (items : row).

(** What the process did to the driver, in order. *)
Inductive event : Type :=
| EvConnect (p : params) (ok : bool)
| EvCursor (conn : nat) (ok : bool)
| EvExecute (q : stmt) (ok : bool)
| EvCloseCursor (id : nat)
| EvCloseConn (id : nat).

(** The server behind the driver: whether it accepts a connection,
    whether it hands out a cursor, and what a statement does. *)
Record driver : Type := Driver {
  drv_connect : params -> option exn;
  drv_cursor : option exn;
  drv_execute : stmt -> Pg.database -> exn + (Pg.database * list row)
}.

(** PostgreSQL as modelled in [Pg], reachable or not. *)
Definition postgres (up : bool) : driver :=
  Driver (fun _ => if up then None
                   else Some (Psycopg2Error "could not connect to server"))
         None
         Pg.execute.

Record process : Type := Process {
  stdout : list string;        (* one entry per print call *)
  stdin : list string;         (* the lines still to be read *)
  uuid_calls : nat;            (* calls of uuid.uuid4() so far *)
  next_handle : nat;
  live : list nat;             (* open connections and cursors *)
  trace : list event;
  db : Pg.database
}.

(** The fields of a [DatabaseSetup] object. *)
Record setup : Type := Setup {
  connection_params : params;
  conn : option nat;
  cursor : option pgcursor
}.

Record state : Type := St {
  self : setup;
  proc : process
}.

(** A fresh process in front of a server holding [d]. *)
Definition boot (d : Pg.database) (input_lines : list string) : process :=
  Process [] input_lines 0 0 [] [] d.

(** ** State and exceptions *)

Definition M (S A : Type) : Type := S -> (exn + A) * S.

Definition ret {S A : Type} (a : A) : M S A := fun s => (inr a, s).

Definition raise {S A : Type} (e : exn) : M S A := fun s => (inl e, s).

Definition bind {S A B : Type} (m : M S A) (k : A -> M S B) : M S B :=
  fun s => match m s with
           | (inr a, s') => k a s'
           | (inl e, s') => (inl e, s')
           end.

Declare Scope py_scope.
Delimit Scope py_scope with py.
Notation "x <- m ;; k" := (bind m (fun x => k))
  (at level 61, m at next level, right associativity) : py_scope.
Notation "m ;; k" := (bind m (fun _ => k))
  (at level 61, right associativity) : py_scope.
Open Scope py_scope.

(** [try: body except <catches> as e: handler e]. *)
Definition try_except {S A : Type} (body : M S A) (catches : exn -> bool)
           (handler : exn -> M S A) : M S A :=
  fun s => match body s with
           | (inl e, s') => if catches e then handler e s' else (inl e, s')
           | r => r
           end.

(** [try: body finally: cleanup]: the cleanup runs on every way out of
    the body; an exception of the cleanup replaces the body's outcome. *)
Definition try_finally {S A : Type} (body : M S A) (cleanup : M S unit)
  : M S A :=
  fun s => match body s with
           | (r, s') => match cleanup s' with
                        | (inl e, s'') => (inl e, s'')
                        | (inr _, s'') => (r, s'')
                        end
           end.

(** [for x in l: f x]. *)
Fixpoint for_each {S X : Type} (l : list X) (f : X -> M S unit) : M S unit :=
  match l with
  | [] => ret tt
  | x :: l' => f x ;; for_each l' f
  end.

(** A result of a library call. *)
Definition lift {S A : Type} (r : exn + A) : M S A := fun s => (r, s).

(** A computation of the process, run inside a method. *)
Definition in_proc {A : Type} (m : M process A) : M state A :=
  fun s => match m (proc s) with
           | (r, p) => (r, St (self s) p)
           end.

Definition sys_exit {S A : Type} (code : Z) : M S A := raise (SystemExit code).

(** ** Field updates *)

Definition set_stdout (v : list string) (p : process) : process :=
  Process v (stdin p) (uuid_calls p) (next_handle p) (live p) (trace p) (db p).
Definition set_stdin (v : list string) (p : process) : process :=
  Process (stdout p) v (uuid_calls p) (next_handle p) (live p) (trace p) (db p).
Definition set_uuid_calls (v : nat) (p : process) : process :=
  Process (stdout p) (stdin p) v (next_handle p) (live p) (trace p) (db p).
Definition set_next_handle (v : nat) (p : process) : process :=
  Process (stdout p) (stdin p) (uuid_calls p) v (live p) (trace p) (db p).
Definition set_live (v : list nat) (p : process) : process :=
  Process (stdout p) (stdin p) (uuid_calls p) (next_handle p) v (trace p) (db p).
Definition set_trace (v : list event) (p : process) : process :=
  Process (stdout p) (stdin p) (uuid_calls p) (next_handle p) (live p) v (db p).
Definition set_db (v : Pg.database) (p : process) : process :=
  Process (stdout p) (stdin p) (uuid_calls p) (next_handle p) (live p) (trace p) v.

Definition log (ev : event) (p : process) : process :=
  set_trace (trace p ++ [ev]) p.

Definition set_conn (v : option nat) (o : setup) : setup :=
  Setup (connection_params o) v (cursor o).
Definition set_cursor (v : option pgcursor) (o : setup) : setup :=
  Setup (connection_params o) (conn o) v.

(** ** Console *)

Definition print_p (line : string) : M process unit :=
  fun p => (inr tt, set_stdout (stdout p ++ [line]) p).

Definition print (line : string) : M state unit := in_proc (print_p line).

(** [input(prompt)]: writes the prompt, reads one line; [EOFError] when
    standard input is exhausted. *)
Definition input (prompt : string) : M process string :=
  fun p =>
    let p' := set_stdout (stdout p ++ [prompt]) p in
    match stdin p' with
    | [] => (inl EOFError, p')
    | l :: rest => (inr l, set_stdin rest p')
    end.

Definition nl : string := String (ascii_of_nat 10) EmptyString.

(** [s * n] for a string. *)
Fixpoint str_mul (s : string) (n : nat) : string :=
  match n with
  | O => EmptyString
  | S n' => s ++ str_mul s n'
  end.

Definition str_of_opt (o : option string) : string :=
  match o with
  | Some s => s
  | None => "None"
  end.

Definition str_of_value (v : value) : string :=
  match v with
  | VNull => "None"
  | VText s => s
  | VInt z => str_of_Z z
  | VBool true => "True"
  | VBool false => "False"
  | VGenUuid n => "uuid-" ++ str_of_nat n
  | VNow => "now"
  | VToday n => "today+" ++ str_of_Z n
  end.

Definition memn (n : nat) (l : list nat) : bool := existsb (Nat.eqb n) l.

Definition removen (n : nat) (l : list nat) : list nat :=
  filter (fun m => negb (Nat.eqb m n)) l.

(* ===================================================================== *)
(** * The script *)
(* ===================================================================== *)

(** The environment after [load_dotenv()]: [os.getenv]. *)
Definition environ : Type := string -> option string.

(** Truth value of [os.getenv(var)]: unset and empty are both false. *)
Definition truthy (o : option string) : bool :=
  match o with
  | Some (String _ _) => true
  | _ => false
  end.

Section Script.

Variable drv : driver.
Variable uuid4 : nat -> string.              (* the n-th draw of uuid.uuid4() *)
Variable hashlib_impl : string -> callable.  (* what hashlib's names compute *)

(** ** psycopg2 *)

(** [psycopg2.connect( ** params)]. *)
Definition psycopg2_connect (ps : params) : M process nat :=
  fun p => match drv_connect drv ps with
           | Some e => (inl e, log (EvConnect ps false) p)
           | None =>
               let h := next_handle p in
               (inr h, log (EvConnect ps true)
                           (set_live (h :: live p) (set_next_handle (S h) p)))
           end.

(** [conn.cursor(cursor_factory=f)]. *)
Definition conn_cursor (c : nat) (f : cursor_factory) : M process pgcursor :=
  fun p =>
    if negb (memn c (live p))
    then (inl (Psycopg2Error "connection already closed"), p)
    else match drv_cursor drv with
         | Some e => (inl e, log (EvCursor c false) p)
         | None =>
             let h := next_handle p in
             (inr (Cursor h c f None),
              log (EvCursor c true)
                  (set_live (h :: live p) (set_next_handle (S h) p)))
         end.

Definition cursor_open (c : pgcursor) (p : process) : bool :=
  andb (memn (cur_id c) (live p)) (memn (cur_conn c) (live p)).

Definition none_has_no (attr : string) : exn :=
  AttributeError ("'NoneType' object has no attribute '" ++ attr ++ "'").

(** [self.cursor.execute(q)]: one statement, committed on its own. *)
Definition cursor_execute (q : stmt) : M state unit :=
  fun s =>
    match cursor (self s) with
    | None => (inl (none_has_no "execute"), s)
    | Some c =>
        if negb (cursor_open c (proc s))
        then (inl (Psycopg2Error "cursor already closed"), s)
        else match drv_execute drv q (db (proc s)) with
             | inl e => (inl e, St (self s) (log (EvExecute q false) (proc s)))
             | inr (d, rows) =>
                 (inr tt,
                  St (set_cursor
                        (Some (Cursor (cur_id c) (cur_conn c) (cur_factory c)
                                      (if read_only q then Some rows else None)))
                        (self s))
                     (log (EvExecute q true) (set_db d (proc s))))
             end
    end.

Definition make_row (f : cursor_factory) (r : row) : pyrow :=
  match f with
  | TupleCursor => RowTuple (map snd r)
  | RealDictCursor => RowDict r
  end.

(** [self.cursor.fetchone()]. *)
Definition fetchone : M state (option pyrow) :=
  fun s =>
    match cursor (self s) with
    | None => (inl (none_has_no "fetchone"), s)
    | Some c =>
        if negb (cursor_open c (proc s))
        then (inl (Psycopg2Error "cursor already closed"), s)
        else match cur_rows c with
             | None => (inl (Psycopg2Error "no results to fetch"), s)
             | Some [] => (inr None, s)
             | Some (r :: rest) =>
                 (inr (Some (make_row (cur_factory c) r)),
                  St (set_cursor
                        (Some (Cursor (cur_id c) (cur_conn c) (cur_factory c)
                                      (Some rest)))
                        (self s))
                     (proc s))
             end
    end.

(** [self.cursor.fetchall()]. *)
Definition fetchall : M state (list pyrow) :=
  fun s =>
    match cursor (self s) with
    | None => (inl (none_has_no "fetchall"), s)
    | Some c =>
        if negb (cursor_open c (proc s))
        then (inl (Psycopg2Error "cursor already closed"), s)
        else match cur_rows c with
             | None => (inl (Psycopg2Error "no results to fetch"), s)
             | Some rows =>
                 (inr (map (make_row (cur_factory c)) rows),
                  St (set_cursor
                        (Some (Cursor (cur_id c) (cur_conn c) (cur_factory c)
                                      (Some [])))
                        (self s))
                     (proc s))
             end
    end.

(** [r[i]] for an integer [i]. *)
Definition getitem_int (r : option pyrow) (i : nat) : exn + value :=
  match r with
  | None => inl (TypeError "'NoneType' object is not subscriptable")
  | Some (RowTuple vs) =>
      match nth_error vs i with
      | Some v => inr v
      | None => inl (IndexError "tuple index out of range")
      end
  | Some (RowDict _) => inl (KeyError (str_of_nat i))
  end.

(** [r[k]] for a string [k]. *)
Definition getitem_str (r : pyrow) (k : string) : exn + value :=
  match r with
  | RowTuple _ =>
      inl (TypeError "tuple indices must be integers or slices, not str")
  | RowDict items =>
      match lookup k items with
      | Some v => inr v
      | None => inl (KeyError k)
      end
  end.

(** [cursor.close()] and [conn.close()]. *)
Definition cursor_close (c : pgcursor) : M process unit :=
  fun p => (inr tt, log (EvCloseCursor (cur_id c))
                        (set_live (removen (cur_id c) (live p)) p)).

Definition conn_close (h : nat) : M process unit :=
  fun p => (inr tt, log (EvCloseConn h) (set_live (removen h (live p)) p)).

(** ** DatabaseSetup.__init__ *)

Definition required_vars : list string := ["PGDATABASE"; "PGUSER"; "PGPASSWORD"].

(** [int(os.getenv('PGPORT', 5432))]. *)
Definition port_of (e : environ) : exn + Z :=
  match e "PGPORT" with
  | None => inr 5432%Z
  | Some v =>
      match int_of_str v with
      | Some z => inr z
      | None => inl (ValueError
                       ("invalid literal for int() with base 10: '" ++ v ++ "'"))
      end
  end.

Definition missing_vars (e : environ) : list string :=
  filter (fun var => negb (truthy (e var))) required_vars.

Definition DatabaseSetup_init (e : environ) : M process setup :=
  pt <- lift (port_of e) ;;
  let ps := Params (match e "PGHOST" with Some h => h | None => "localhost" end)
                   pt (e "PGDATABASE") (e "PGUSER") (e "PGPASSWORD") in
  match missing_vars e with
  | _ :: _ =>
      print_p ("Error: Missing required environment variables: "
                 ++ join ", " (missing_vars e)) ;;
      print_p "Please set these in your .env file or environment." ;;
      sys_exit 1%Z
  | [] => ret (Setup ps None None)
  end.

(** ** connect *)
Definition connect : M state unit :=
  try_except
    (fun s =>
       let ps := connection_params (self s) in
       (print ("Connecting to PostgreSQL at " ++ host ps ++ ":"
                 ++ str_of_Z (port ps)) ;;
        h <- in_proc (psycopg2_connect ps) ;;
        (fun s => (inr tt, St (set_conn (Some h) (self s)) (proc s))) ;;
        c <- in_proc (conn_cursor h RealDictCursor) ;;
        (fun s => (inr tt, St (set_cursor (Some c) (self s)) (proc s))) ;;
        print "✓ Database connection established") s)
    is_psycopg2_Error
    (fun e =>
       print ("Error connecting to database: " ++ str_of_exn e) ;;
       sys_exit 1%Z).

(** ** disconnect *)
Definition disconnect : M state unit :=
  (fun s => match cursor (self s) with
            | Some c => in_proc (cursor_close c) s
            | None => (inr tt, s)
            end) ;;
  (fun s => match conn (self s) with
            | Some h => in_proc (conn_close h) s
            | None => (inr tt, s)
            end).

(** ** drop_existing_schema *)

(** The tables, in the order they are dropped. *)
Definition drop_tables : list string :=
  [ "audit_events"; "jump_logs"; "awards"; "badges";
    "step_completions"; "progression_steps"; "assignments";
    "attendance_requests"; "preferences"; "session_blocks";
    "availability"; "mentees"; "mentors"; "users" ].

Definition drop_enums : list string :=
  [ "role"; "status"; "comfort_level"; "category" ].

Definition drop_existing_schema : M state unit :=
  print "⚠️  Dropping existing schema..." ;;
  for_each drop_tables (fun table => cursor_execute (DropTableIfExistsCascade table)) ;;
  for_each drop_enums (fun enum => cursor_execute (DropTypeIfExistsCascade enum)) ;;
  print "✓ Existing schema dropped".

(** ** create_enums *)
Definition enums : list (string * list string) :=
  [ ("role", ["mentor"; "mentee"; "admin"]);
    ("status", ["pending"; "confirmed"; "declined"; "cancelled"]);
    ("comfort_level", ["low"; "medium"; "high"]);
    ("category", ["2way"; "3way"; "4way"; "canopy"; "safety"]) ].

Definition create_enums : M state unit :=
  print "Creating enums..." ;;
  for_each enums (fun kv => cursor_execute (CreateTypeEnum (fst kv) (snd kv))) ;;
  print "✓ Enums created".

(** ** create_tables *)

Definition pk_uuid : column := Col "id" UUID [PRIMARY_KEY; DEFAULT gen_random_uuid].

Definition users_ddl : stmt :=
  CreateTable "users"
    [ pk_uuid;
      Col "role" (Named "role") [NOT_NULL];
      Col "name" TEXT [NOT_NULL];
      Col "email" TEXT [NOT_NULL; UNIQUE];
      Col "phone" TEXT [];
      Col "uspa_license" TEXT [];
      Col "jumps" INTEGER [DEFAULT (Lit (VInt 0))];
      Col "is_active" BOOLEAN [DEFAULT (Lit (VBool true))];
      Col "password_hash" TEXT [NOT_NULL];
      Col "created_at" TIMESTAMP [DEFAULT CURRENT_TIMESTAMP] ].

Definition mentors_ddl : stmt :=
  CreateTable "mentors"
    [ Col "id" UUID [PRIMARY_KEY; REFERENCES "users" "id"];
      Col "ratings" TEXT [];
      Col "coach_number" TEXT [];
      Col "disciplines" JSONB [DEFAULT (Lit (VText "[]"))];
      Col "max_concurrent_mentees" INTEGER [DEFAULT (Lit (VInt 2))];
      Col "seniority_score" INTEGER [DEFAULT (Lit (VInt 0))];
      Col "dz_endorsement" BOOLEAN [DEFAULT (Lit (VBool false))] ].

Definition mentees_ddl : stmt :=
  CreateTable "mentees"
    [ Col "id" UUID [PRIMARY_KEY; REFERENCES "users" "id"];
      Col "goals" TEXT [];
      Col "comfort_level" (Named "comfort_level") [DEFAULT (Lit (VText "medium"))];
      Col "canopy_size" INTEGER [];
      Col "last_currency_date" DATE [] ].

Definition availability_ddl : stmt :=
  CreateTable "availability"
    [ pk_uuid;
      Col "user_id" UUID [REFERENCES "users" "id"; NOT_NULL];
      Col "role" (Named "role") [NOT_NULL];
      Col "day_of_week" INTEGER [NOT_NULL];
      Col "start_time" TIME [NOT_NULL];
      Col "end_time" TIME [NOT_NULL];
      Col "start_date" DATE [];
      Col "end_date" DATE [];
      Col "is_recurring" BOOLEAN [DEFAULT (Lit (VBool true))];
      Col "capacity_override" INTEGER [] ].

Definition session_blocks_ddl : stmt :=
  CreateTable "session_blocks"
    [ pk_uuid;
      Col "mentor_id" UUID [REFERENCES "mentors" "id"; NOT_NULL];
      Col "date" DATE [NOT_NULL];
      Col "start_time" TIME [NOT_NULL];
      Col "end_time" TIME [NOT_NULL];
      Col "dz_id" UUID [];
      Col "load_interval_min" INTEGER [DEFAULT (Lit (VInt 90))];
      Col "block_capacity_hint" INTEGER [DEFAULT (Lit (VInt 8))] ].

Definition attendance_requests_ddl : stmt :=
  CreateTable "attendance_requests"
    [ pk_uuid;
      Col "mentee_id" UUID [REFERENCES "mentees" "id"; NOT_NULL];
      Col "session_block_id" UUID [REFERENCES "session_blocks" "id"; NOT_NULL];
      Col "status" (Named "status") [DEFAULT (Lit (VText "pending"))];
      Col "created_at" TIMESTAMP [DEFAULT CURRENT_TIMESTAMP] ].

Definition preferences_ddl : stmt :=
  CreateTable "preferences"
    [ pk_uuid;
      Col "mentee_id" UUID [REFERENCES "mentees" "id"; NOT_NULL];
      Col "preferred_mentors" JSONB [DEFAULT (Lit (VText "[]"))];
      Col "avoid_mentors" JSONB [DEFAULT (Lit (VText "[]"))];
      Col "notes" TEXT [] ].

Definition assignments_ddl : stmt :=
  CreateTable "assignments"
    [ pk_uuid;
      Col "session_block_id" UUID [REFERENCES "session_blocks" "id"; NOT_NULL];
      Col "mentor_id" UUID [REFERENCES "mentors" "id"; NOT_NULL];
      Col "mentee_id" UUID [REFERENCES "mentees" "id"; NOT_NULL];
      Col "status" (Named "status") [DEFAULT (Lit (VText "pending"))];
      Col "created_at" TIMESTAMP [DEFAULT CURRENT_TIMESTAMP] ].

Definition progression_steps_ddl : stmt :=
  CreateTable "progression_steps"
    [ pk_uuid;
      Col "code" TEXT [UNIQUE; NOT_NULL];
      Col "title" TEXT [NOT_NULL];
      Col "description" TEXT [];
      Col "category" (Named "category") [NOT_NULL];
      Col "required" BOOLEAN [DEFAULT (Lit (VBool true))];
      Col "min_jumps_gate" INTEGER [DEFAULT (Lit (VInt 0))];
      Col "references" JSONB [] ].

Definition step_completions_ddl : stmt :=
  CreateTable "step_completions"
    [ pk_uuid;
      Col "mentee_id" UUID [REFERENCES "mentees" "id"; NOT_NULL];
      Col "step_id" UUID [REFERENCES "progression_steps" "id"; NOT_NULL];
      Col "mentor_id" UUID [REFERENCES "mentors" "id"; NOT_NULL];
      Col "completed_at" TIMESTAMP [DEFAULT CURRENT_TIMESTAMP];
      Col "evidence_url" TEXT [];
      Col "notes" TEXT [] ].

Definition badges_ddl : stmt :=
  CreateTable "badges"
    [ pk_uuid;
      Col "code" TEXT [UNIQUE; NOT_NULL];
      Col "name" TEXT [NOT_NULL];
      Col "description" TEXT [];
      Col "criteria_json" JSONB [] ].

Definition awards_ddl : stmt :=
  CreateTable "awards"
    [ pk_uuid;
      Col "mentee_id" UUID [REFERENCES "mentees" "id"; NOT_NULL];
      Col "badge_id" UUID [REFERENCES "badges" "id"; NOT_NULL];
      Col "awarded_at" TIMESTAMP [DEFAULT CURRENT_TIMESTAMP] ].

Definition jump_logs_ddl : stmt :=
  CreateTable "jump_logs"
    [ pk_uuid;
      Col "mentee_id" UUID [REFERENCES "mentees" "id"; NOT_NULL];
      Col "date" DATE [NOT_NULL];
      Col "jump_number" INTEGER [NOT_NULL];
      Col "aircraft" TEXT [];
      Col "exit_alt" INTEGER [];
      Col "freefall_time" INTEGER [];
      Col "deployment_alt" INTEGER [];
      Col "pattern_notes" TEXT [];
      Col "drill_ref" TEXT [];
      Col "mentor_id" UUID [REFERENCES "mentors" "id"] ].

Definition audit_events_ddl : stmt :=
  CreateTable "audit_events"
    [ pk_uuid;
      Col "actor_id" UUID [REFERENCES "users" "id"];
      Col "type" TEXT [NOT_NULL];
      Col "payload_json" JSONB [];
      Col "at" TIMESTAMP [DEFAULT CURRENT_TIMESTAMP] ].

Definition create_tables : M state unit :=
  print "Creating tables..." ;;
  cursor_execute users_ddl ;;
  cursor_execute mentors_ddl ;;
  cursor_execute mentees_ddl ;;
  cursor_execute availability_ddl ;;
  cursor_execute session_blocks_ddl ;;
  cursor_execute attendance_requests_ddl ;;
  cursor_execute preferences_ddl ;;
  cursor_execute assignments_ddl ;;
  cursor_execute progression_steps_ddl ;;
  cursor_execute step_completions_ddl ;;
  cursor_execute badges_ddl ;;
  cursor_execute awards_ddl ;;
  cursor_execute jump_logs_ddl ;;
  cursor_execute audit_events_ddl ;;
  print "✓ Tables created".

(** ** create_indexes *)
Definition indexes : list stmt :=
  [ CreateIndex "idx_users_email" "users" ["email"];
    CreateIndex "idx_users_role" "users" ["role"];
    CreateIndex "idx_availability_user_id" "availability" ["user_id"];
    CreateIndex "idx_availability_day_role" "availability" ["day_of_week"; "role"];
    CreateIndex "idx_session_blocks_mentor_date" "session_blocks" ["mentor_id"; "date"];
    CreateIndex "idx_attendance_requests_session" "attendance_requests" ["session_block_id"];
    CreateIndex "idx_assignments_session" "assignments" ["session_block_id"];
    CreateIndex "idx_assignments_mentor" "assignments" ["mentor_id"];
    CreateIndex "idx_assignments_mentee" "assignments" ["mentee_id"];
    CreateIndex "idx_step_completions_mentee" "step_completions" ["mentee_id"];
    CreateIndex "idx_step_completions_step" "step_completions" ["step_id"];
    CreateIndex "idx_progression_steps_category" "progression_steps" ["category"];
    CreateIndex "idx_awards_mentee" "awards" ["mentee_id"];
    CreateIndex "idx_jump_logs_mentee" "jump_logs" ["mentee_id"];
    CreateIndex "idx_audit_events_actor" "audit_events" ["actor_id"];
    CreateIndex "idx_audit_events_type_at" "audit_events" ["type"; "at"] ].

Definition create_indexes : M state unit :=
  print "Creating indexes..." ;;
  for_each indexes (fun index_sql => cursor_execute index_sql) ;;
  print "✓ Indexes created".

(** ** hash_password

    [hashlib.pbkdf2_hex(password.encode(), b'salt', 100000)]: the
    attribute is looked up in the module first, then called. *)
Definition hash_password (password : string) : M state string :=
  f <- lift (hashlib_getattr hashlib_impl "pbkdf2_hex") ;;
  lift (f [PyBytes password; PyBytes "salt"; PyInt 100000]).

(** ** seed_users *)
Record user_data : Type := UserData {
  ud_role : string;
  ud_name : string;
  ud_email : string;
  ud_phone : string;
  ud_uspa_license : string;
  ud_jumps : Z;
  ud_password : string
}.

Definition users_data : list user_data :=
  [ UserData "mentor" "Alex Rodriguez" "mentor@test.com" "+1-555-0101"
             "D-12345" 2500 "password123";
    UserData "mentee" "Sarah Johnson" "mentee@test.com" "+1-555-0102"
             "A-67890" 25 "password123";
    UserData "admin" "Mike Admin" "admin@test.com" "+1-555-0103"
             "D-54321" 5000 "password123" ].

(** [str(uuid.uuid4())]. *)
Definition new_uuid : M state string :=
  in_proc (fun p => (inr (uuid4 (uuid_calls p)),
                     set_uuid_calls (S (uuid_calls p)) p)).

Definition insert_user (u : user_data) (user_id password_hash : string) : stmt :=
  InsertInto "users"
    ["id"; "role"; "name"; "email"; "phone"; "uspa_license"; "jumps";
     "password_hash"]
    [ Param (VText user_id); Param (VText (ud_role u));
      Param (VText (ud_name u)); Param (VText (ud_email u));
      Param (VText (ud_phone u)); Param (VText (ud_uspa_license u));
      Param (VInt (ud_jumps u)); Param (VText password_hash) ].

(** The loop over [users_data], with the dict [user_ids] it fills. *)
Fixpoint seed_users_loop (data : list user_data)
         (user_ids : list (string * string)) : M state (list (string * string)) :=
  match data with
  | [] => ret user_ids
  | u :: data' =>
      user_id <- new_uuid ;;
      password_hash <- hash_password (ud_password u) ;;
      cursor_execute (insert_user u user_id password_hash) ;;
      seed_users_loop data' (setitem (ud_role u) user_id user_ids)
  end.

Definition seed_users : M state (list (string * string)) :=
  print "Creating seed users..." ;;
  user_ids <- seed_users_loop users_data [] ;;
  print "✓ Seed users created" ;;
  ret user_ids.

(** [d[k]] on a dict. *)
Definition getitem {S : Type} (d : list (string * string)) (k : string)
  : M S string :=
  match lookup k d with
  | Some v => ret v
  | None => raise (KeyError k)
  end.

(** ** seed_profiles *)

(** The text of a JSON array of strings, as the script writes it:
    the items in double quotes, separated by a comma and a space. *)
Definition dquote : string := String (ascii_of_nat 34) EmptyString.

Definition json_array (items : list string) : string :=
  "[" ++ join ", " (map (fun x => dquote ++ x ++ dquote) items) ++ "]".

Definition mentor_cols : list string :=
  ["id"; "ratings"; "coach_number"; "disciplines"; "max_concurrent_mentees";
   "seniority_score"; "dz_endorsement"].

Definition seed_profiles (user_ids : list (string * string)) : M state unit :=
  print "Creating user profiles..." ;;
  mentor <- getitem user_ids "mentor" ;;
  cursor_execute (InsertInto "mentors" mentor_cols
             [ Param (VText mentor); Param (VText "AFF-I, Tandem, Coach");
               Param (VText "C-12345");
               Param (VText (json_array ["AFF"; "Tandem"; "Coaching"]));
               Param (VInt 3); Param (VInt 85); Param (VBool true) ]) ;;
  admin <- getitem user_ids "admin" ;;
  cursor_execute (InsertInto "mentors" mentor_cols
             [ Param (VText admin);
               Param (VText "AFF-I, Tandem, Coach, Instructor Examiner");
               Param (VText "IE-98765");
               Param (VText (json_array ["AFF"; "Tandem"; "Coaching"; "Camera"]));
               Param (VInt 5); Param (VInt 100); Param (VBool true) ]) ;;
  mentee <- getitem user_ids "mentee" ;;
  cursor_execute (InsertInto "mentees"
             ["id"; "goals"; "comfort_level"; "canopy_size"; "last_currency_date"]
             [ Param (VText mentee);
               Param (VText "Complete AFF program and get A-license");
               Param (VText "medium"); Param (VInt 280);
               Param (VText "2024-12-15") ]) ;;
  print "✓ User profiles created".

(** ** seed_progression_steps *)
Definition progression_data : list (string * string * string * string * Z) :=
  [ ("2W-01", "Basic 2-Way Exit", "Learn synchronized exits with partner for stable relative work", "2way", 26%Z);
    ("2W-02", "2-Way Sequential", "Complete 2-point sequential moves with partner", "2way", 30%Z);
    ("3W-01", "Star Exit", "Master 3-way star exit from aircraft", "3way", 35%Z);
    ("3W-02", "Sidebody Donut", "Build and hold sidebody donut formation", "3way", 40%Z);
    ("3W-03", "Open Accordion", "Transition through open accordion formation", "3way", 45%Z);
    ("3W-04", "Cat to Bipole", "Execute cat to bipole transition smoothly", "3way", 50%Z);
    ("3W-05", "3-Way Sequential", "Complete 3-point sequential with 2 partners", "3way", 55%Z);
    ("3W-06", "3-Way Random", "Complete random 3-way formations from draw", "3way", 60%Z);
    ("4W-01", "Star to Diamond", "Transition from star to diamond formation", "4way", 65%Z);
    ("4W-02", "Meeker Exit", "Execute proper 4-way meeker exit", "4way", 68%Z);
    ("4W-03", "Compressed Accordion", "Build compressed accordion with 3 partners", "4way", 71%Z);
    ("4W-04", "Bipole to Donut", "Smooth transition from bipole to donut", "4way", 74%Z);
    ("4W-05", "Sidebody Box", "Form and maintain sidebody box formation", "4way", 77%Z);
    ("4W-06", "Murphy Flake", "Complete murphy flake with proper grips", "4way", 80%Z);
    ("4W-07", "4-Way Sequential", "Execute 4-point sequential moves", "4way", 83%Z);
    ("4W-08", "Zipper to Bow", "Transition from zipper to bow formation", "4way", 86%Z);
    ("4W-09", "Block Sequence", "Complete 2-block sequence with team", "4way", 90%Z);
    ("4W-10", "4-Way Competition", "Perform competition-level 4-way sequences", "4way", 95%Z);
    ("CAN-01", "Accuracy Landing", "Land within 5 meters of target consistently", "canopy", 30%Z);
    ("CAN-02", "Traffic Pattern", "Navigate busy pattern with proper spacing", "canopy", 40%Z);
    ("CAN-03", "Emergency Procedures", "Demonstrate malfunction response procedures", "canopy", 50%Z);
    ("SAF-01", "Altitude Awareness", "Demonstrate proper altitude discipline", "safety", 26%Z);
    ("SAF-02", "Collision Avoidance", "Show effective air traffic awareness", "safety", 35%Z);
    ("SAF-03", "Emergency Response", "Execute emergency action plan correctly", "safety", 45%Z) ].

Definition insert_step (d : string * string * string * string * Z) : stmt :=
  let '(code, title, description, category, min_jumps) := d in
  InsertInto "progression_steps"
    ["code"; "title"; "description"; "category"; "min_jumps_gate"]
    [ Param (VText code); Param (VText title); Param (VText description);
      Param (VText category); Param (VInt min_jumps) ].

Definition seed_progression_steps : M state unit :=
  print "Creating progression steps..." ;;
  for_each progression_data (fun d => cursor_execute (insert_step d)) ;;
  print "✓ Progression steps created".

(** ** seed_badges *)
Definition badges_data : list (string * string * string) :=
  [ ("FIRST_2WAY", "First 2-Way", "Complete your first 2-way formation");
    ("FIRST_3WAY", "First 3-Way", "Complete your first 3-way formation");
    ("FIRST_4WAY", "First 4-Way", "Complete your first 4-way formation");
    ("FORMATION_MASTER", "Formation Master", "Complete all formation progression steps");
    ("CANOPY_PILOT", "Canopy Pilot", "Master all canopy control skills");
    ("SAFETY_CONSCIOUS", "Safety Conscious", "Complete all safety training");
    ("A_LICENSE_READY", "A-License Ready", "Complete entire A-license curriculum");
    ("QUICK_LEARNER", "Quick Learner", "Complete 5 steps in one week");
    ("DEDICATED_STUDENT", "Dedicated Student", "Complete 20 jumps in training");
    ("MENTOR_FAVORITE", "Mentor's Favorite", "Receive positive feedback from 3 different mentors") ].

Definition insert_badge (d : string * string * string) : stmt :=
  let '(code, name, description) := d in
  InsertInto "badges" ["code"; "name"; "description"]
    [ Param (VText code); Param (VText name); Param (VText description) ].

Definition seed_badges : M state unit :=
  print "Creating badges..." ;;
  for_each badges_data (fun d => cursor_execute (insert_badge d)) ;;
  print "✓ Badges created".

(** ** seed_sample_data *)
Definition availability_cols : list string :=
  ["user_id"; "role"; "day_of_week"; "start_time"; "end_time"].

Definition seed_sample_data (user_ids : list (string * string)) : M state unit :=
  print "Creating sample data..." ;;
  mentor <- getitem user_ids "mentor" ;;
  cursor_execute (InsertInto "availability" availability_cols
             [ Param (VText mentor); Literal (VText "mentor"); Literal (VInt 6);
               Literal (VText "08:00"); Literal (VText "17:00") ]) ;;
  mentee <- getitem user_ids "mentee" ;;
  cursor_execute (InsertInto "availability" availability_cols
             [ Param (VText mentee); Literal (VText "mentee"); Literal (VInt 6);
               Literal (VText "09:00"); Literal (VText "16:00") ]) ;;
  session_id <- new_uuid ;;
  mentor <- getitem user_ids "mentor" ;;
  cursor_execute (InsertInto "session_blocks"
             ["id"; "mentor_id"; "date"; "start_time"; "end_time"]
             [ Param (VText session_id); Param (VText mentor);
               CurrentDatePlus 1; Literal (VText "10:00");
               Literal (VText "15:00") ]) ;;
  mentee <- getitem user_ids "mentee" ;;
  cursor_execute (InsertInto "attendance_requests"
             ["mentee_id"; "session_block_id"; "status"]
             [ Param (VText mentee); Param (VText session_id);
               Literal (VText "confirmed") ]) ;;
  mentor <- getitem user_ids "mentor" ;;
  mentee <- getitem user_ids "mentee" ;;
  cursor_execute (InsertInto "assignments"
             ["session_block_id"; "mentor_id"; "mentee_id"; "status"]
             [ Param (VText session_id); Param (VText mentor);
               Param (VText mentee); Literal (VText "confirmed") ]) ;;
  print "✓ Sample data created".

(** ** verify_setup *)
Definition verify_tables : list string :=
  [ "users"; "mentors"; "mentees"; "progression_steps";
    "badges"; "availability"; "session_blocks" ].

Definition breakdown_query : stmt :=
  SelectGroupCount "progression_steps" "category" ["2way"; "3way"; "4way"].

Definition verify_setup : M state unit :=
  print "Verifying database setup..." ;;
  for_each verify_tables
    (fun table =>
       cursor_execute (SelectCount table) ;;
       r <- fetchone ;;
       count <- lift (getitem_int r 0) ;;
       print ("  " ++ table ++ ": " ++ str_of_value count ++ " records")) ;;
  cursor_execute breakdown_query ;;
  formation_counts <- fetchall ;;
  print (nl ++ "Progression breakdown:") ;;
  for_each formation_counts
    (fun r =>
       category <- lift (getitem_str r "category") ;;
       count <- lift (getitem_str r "count") ;;
       print ("  " ++ str_of_value category ++ ": " ++ str_of_value count
                   ++ " skills")) ;;
  print "✓ Database verification complete".

(** ** run_setup *)

(** The suite of the [try]. *)
Definition setup_body (drop_existing : bool) : M state unit :=
  connect ;;
  (if drop_existing then drop_existing_schema else ret tt) ;;
  create_enums ;;
  create_tables ;;
  create_indexes ;;
  user_ids <- seed_users ;;
  seed_profiles user_ids ;;
  seed_progression_steps ;;
  seed_badges ;;
  seed_sample_data user_ids ;;
  verify_setup ;;
  print (nl ++ "🎉 Database setup completed successfully!") ;;
  print (nl ++ "Test accounts created:") ;;
  print "  Mentor: mentor@test.com / password123" ;;
  print "  Mentee: mentee@test.com / password123" ;;
  print "  Admin: admin@test.com / password123" ;;
  (fun s =>
     let ps := connection_params (self s) in
     (print (nl ++ "Database: " ++ str_of_opt (database ps)) ;;
      print ("Host: " ++ host ps ++ ":" ++ str_of_Z (port ps))) s).

Definition failure_line (e : exn) : string := "❌ Setup failed: " ++ str_of_exn e.

Definition run_setup (drop_existing : bool) : M state unit :=
  print "🚀 SkyMentor Database Setup" ;;
  print (str_mul "=" 40) ;;
  try_finally
    (try_except (setup_body drop_existing) is_Exception
                (fun e => print (failure_line e) ;; sys_exit 1%Z))
    disconnect.

(** ** main *)

(** [setup = DatabaseSetup(); setup.run_setup(drop_existing=...)]. *)
Definition start (drop_existing : bool) (e : environ) : M process unit :=
  o <- DatabaseSetup_init e ;;
  (fun p => match run_setup drop_existing (St o p) with
            | (r, s) => (r, proc s)
            end).

Definition main (drop_existing : bool) (e : environ) : M process unit :=
  if drop_existing then
    confirm <- input "⚠️  This will DROP ALL EXISTING DATA. Continue? (yes/no): " ;;
    if negb (String.eqb (lower confirm) "yes")
    then print_p "Setup cancelled."
    else start drop_existing e
  else start drop_existing e.

End Script.

(* ===================================================================== *)
(** * The schema as data, and the inputs used in the examples *)
(* ===================================================================== *)

(** The statements of [create_tables], in the order they are sent. *)
Definition tables_ddl : list stmt :=
  [ users_ddl; mentors_ddl; mentees_ddl; availability_ddl;
    session_blocks_ddl; attendance_requests_ddl; preferences_ddl;
    assignments_ddl; progression_steps_ddl; step_completions_ddl;
    badges_ddl; awards_ddl; jump_logs_ddl; audit_events_ddl ].

Definition table_name (q : stmt) : string :=
  match q with
  | CreateTable t _ => t
  | _ => EmptyString
  end.

Definition table_cols (q : stmt) : list column :=
  match q with
  | CreateTable _ cols => cols
  | _ => []
  end.

(** The tables of the data model. *)
Definition data_model : list string := map table_name tables_ddl.


(** The enumerated types the columns of the schema use. *)
Definition enum_uses : list (string * string) :=
  flat_map (fun q =>
              flat_map (fun c => match ctype c with
                                 | Named n => [(table_name q, n)]
                                 | _ => []
                                 end) (table_cols q))
           tables_ddl.



(** The schema [create_enums] and [create_tables] describe, with no
    rows: the four enumerated types and the fourteen tables. *)
Definition schema_db : Pg.database :=
  Db enums
     (map (fun q => (table_name q, Table (table_cols q) [])) tables_ddl)
     [] 0.

(** The tables [create_tables] sends before [progression_steps], and
    the ones it would send from there on. *)
Definition first_tables : list stmt :=
  [ users_ddl; mentors_ddl; mentees_ddl; availability_ddl;
    session_blocks_ddl; attendance_requests_ddl; preferences_ddl;
    assignments_ddl ].

Definition later_tables : list stmt :=
  [ step_completions_ddl; badges_ddl; awards_ddl; jump_logs_ddl;
    audit_events_ddl ].

Definition never_created : list string :=
  map table_name (progression_steps_ddl :: later_tables).

(** Statements applied in order to a database, stopping at an error. *)
Fixpoint apply_all (qs : list stmt) (d : Pg.database) : exn + Pg.database :=
  match qs with
  | [] => inr d
  | q :: qs' =>
      match Pg.execute q d with
      | inl e => inl e
      | inr (d', _) => apply_all qs' d'
      end
  end.

(** The database reached by the same statements: the one the first
    error leaves behind, or the last one. *)
Fixpoint reach (qs : list stmt) (d : Pg.database) : Pg.database :=
  match qs with
  | [] => d
  | q :: qs' =>
      match Pg.execute q d with
      | inl _ => d
      | inr (d', _) => reach qs' d'
      end
  end.

Definition outcome (r : exn + Pg.database) : exn + unit :=
  match r with
  | inl e => inl e
  | inr _ => inr tt
  end.

(** The object holds a cursor that is open on an open connection. *)
Definition connected (s : state) : bool :=
  match cursor (self s) with
  | Some c => cursor_open c (proc s)
  | None => false
  end.

(** [schema_db] with the curriculum of [seed_progression_steps] in it. *)
Definition curriculum_db : Pg.database :=
  match apply_all (map insert_step progression_data) schema_db with
  | inr d => d
  | inl _ => schema_db
  end.


(** The events of a list of statements that all succeeded. *)
Definition executed (qs : list stmt) : list event :=
  map (fun q => EvExecute q true) qs.

Definition drop_stmts : list stmt :=
  map DropTableIfExistsCascade drop_tables
      ++ map DropTypeIfExistsCascade drop_enums.

Definition enum_stmts : list stmt :=
  map (fun kv : string * list string => CreateTypeEnum (fst kv) (snd kv)) enums.

(** Inputs for the examples. *)
Definition demo_params : params :=
  Params "localhost" 5432 (Some "skymentor") (Some "sky") (Some "secret").

Definition demo_env : environ :=
  fun k => if String.eqb k "PGDATABASE" then Some "skymentor"
           else if String.eqb k "PGUSER" then Some "sky"
           else if String.eqb k "PGPASSWORD" then Some "secret"
           else None.



Definition demo_uuid4 (n : nat) : string := "uuid4-" ++ str_of_nat n.

Definition demo_hashlib : string -> callable :=
  fun name _ => inr ("digest-of-" ++ name).

(** A new [DatabaseSetup] object in a fresh process. *)
Definition fresh (d : Pg.database) : state :=
  St (Setup demo_params None None) (boot d []).

(** The same after a successful [connect]. *)
Definition session (d : Pg.database) : state :=
  snd (connect (postgres true) (fresh d)).







(** [run_setup] after the enumerated types exist, and after [connect]:
    the rest of the suite of its [try]. *)
Definition after_enums (drv : driver) (uuid4 : nat -> string)
           (impl : string -> callable) : M state unit :=
  create_tables drv ;;
  create_indexes drv ;;
  user_ids <- seed_users drv uuid4 impl ;;
  seed_profiles drv user_ids ;;
  seed_progression_steps drv ;;
  seed_badges drv ;;
  seed_sample_data drv uuid4 user_ids ;;
  verify_setup drv ;;
  print (nl ++ "🎉 Database setup completed successfully!") ;;
  print (nl ++ "Test accounts created:") ;;
  print "  Mentor: mentor@test.com / password123" ;;
  print "  Mentee: mentee@test.com / password123" ;;
  print "  Admin: admin@test.com / password123" ;;
  (fun s =>
     let ps := connection_params (self s) in
     (print (nl ++ "Database: " ++ str_of_opt (database ps)) ;;
      print ("Host: " ++ host ps ++ ":" ++ str_of_Z (port ps))) s).

Definition after_connect (drv : driver) (uuid4 : nat -> string)
           (impl : string -> callable) (drop_existing : bool) : M state unit :=
  (if drop_existing then drop_existing_schema drv else ret tt) ;;
  create_enums drv ;;
  after_enums drv uuid4 impl.

(** The handles a state holds: the open ones, and the two the object
    refers to. *)
Definition handles (s : state) : list nat * option nat * option nat :=
  (live (proc s), conn (self s), option_map cur_id (cursor (self s))).

(** The state in which the [try] of [run_setup] starts: the banner and
    the rule are printed. *)
Definition announced (s : state) : state :=
  snd ((print "🚀 SkyMentor Database Setup" ;; print (str_mul "=" 40)) s).

(** Every handle open in [s] was open in [s0] already or is one of the
    two the object refers to. *)
Definition tracked (s0 s : state) : Prop :=
  forall h : nat,
    In h (live (proc s)) ->
    In h (live (proc s0))
    \/ conn (self s) = Some h
    \/ option_map cur_id (cursor (self s)) = Some h.

Definition event_ok (ev : event) : bool :=
  match ev with
  | EvConnect _ ok | EvCursor _ ok | EvExecute _ ok => ok
  | _ => true
  end.

Definition is_execute (ev : event) : bool :=
  match ev with
  | EvExecute _ _ => true
  | _ => false
  end.

Definition is_close (ev : event) : bool :=
  match ev with
  | EvCloseCursor _ | EvCloseConn _ => true
  | _ => false
  end.

(** Every event succeeded. *)
Definition clean (evs : list event) : bool := forallb event_ok evs.

(** Every event but the last succeeded. *)
Definition abrupt (evs : list event) : bool := clean (removelast evs).

(** The events a computation may leave behind, given how it ended. *)
Definition outcome_ok {A : Type} (r : exn + A) (evs : list event) : bool :=
  match r with
  | inr _ => clean evs
  | inl _ => abrupt evs
  end.

(** The event is a statement that satisfies [P]. *)
Definition sends (P : stmt -> bool) (ev : event) : bool :=
  match ev with
  | EvExecute q _ => P q
  | _ => false
  end.

(** A computation that leaves the handles and the configuration of the
    object alone and asks the driver only to run statements that
    satisfy [P], stopping at the first that fails. *)
Definition quiet {A : Type} (P : stmt -> bool) (m : M state A) : Prop :=
  forall s : state,
  exists evs : list event,
    handles (snd (m s)) = handles s
    /\ connection_params (self (snd (m s))) = connection_params (self s)
    /\ trace (proc (snd (m s))) = (trace (proc s) ++ evs)%list
    /\ forallb (sends P) evs = true
    /\ outcome_ok (fst (m s)) evs = true.

(** No table is created by the statement. *)
Definition no_create_table (q : stmt) : bool :=
  match q with
  | CreateTable _ _ => false
  | _ => true
  end.

(** A table the statement creates uses, as user-defined column types,
    only the enumerated types of [create_enums]. *)
Definition uses_known_enums (q : stmt) : bool :=
  match q with
  | CreateTable _ cols =>
      forallb (fun c => match ctype c with
                        | Named n => mem n (map fst enums)
                        | _ => true
                        end) cols
  | _ => true
  end.

(** The event creates no table. *)
Definition harmless (ev : event) : bool :=
  match ev with
  | EvExecute (CreateTable _ _) _ => false
  | _ => true
  end.

(** None of the names of [enums] is in use in [d], as a type or as a
    table. *)
Definition enum_names_free (d : Pg.database) : bool :=
  forallb (fun n => andb (negb (has_type n d)) (negb (has_table n d)))
          (map fst enums).

(** The enumerated types created so far, after the events [evs]. *)
Fixpoint created_by (created : list string) (evs : list event) : list string :=
  match evs with
  | [] => created
  | EvExecute (CreateTypeEnum n _) true :: evs' => created_by (n :: created) evs'
  | _ :: evs' => created_by created evs'
  end.

(** Every CREATE TABLE among the events comes after the successful
    creation of each enumerated type its columns use. *)
Fixpoint enums_first (created : list string) (evs : list event) : bool :=
  match evs with
  | [] => true
  | EvExecute (CreateTypeEnum n _) true :: evs' => enums_first (n :: created) evs'
  | EvExecute (CreateTable _ cols) _ :: evs' =>
      andb (forallb (fun c => match ctype c with
                              | Named n => mem n created
                              | _ => true
                              end) cols)
           (enums_first created evs')
  | _ :: evs' => enums_first created evs'
  end.

(** ** Notions for the properties of the other methods *)

(** The event, when it is a statement, is one that satisfies [P]. *)
Definition only (P : stmt -> bool) (ev : event) : bool :=
  match ev with
  | EvExecute q _ => P q
  | _ => true
  end.

(** The statement drops nothing. *)
Definition no_drop (q : stmt) : bool :=
  match q with
  | DropTableIfExistsCascade _ | DropTypeIfExistsCascade _ => false
  | _ => true
  end.

(** The statement is schema definition: neither INSERT nor SELECT. *)
Definition ddl_only (q : stmt) : bool :=
  match q with
  | InsertInto _ _ _ | SelectCount _ | SelectGroupCount _ _ _ => false
  | _ => true
  end.

(** [run_setup] after the tables exist: the rest of [after_enums]. *)
Definition after_tables (drv : driver) (uuid4 : nat -> string)
           (impl : string -> callable) : M state unit :=
  create_indexes drv ;;
  user_ids <- seed_users drv uuid4 impl ;;
  seed_profiles drv user_ids ;;
  seed_progression_steps drv ;;
  seed_badges drv ;;
  seed_sample_data drv uuid4 user_ids ;;
  verify_setup drv ;;
  print (nl ++ "🎉 Database setup completed successfully!") ;;
  print (nl ++ "Test accounts created:") ;;
  print "  Mentor: mentor@test.com / password123" ;;
  print "  Mentee: mentee@test.com / password123" ;;
  print "  Admin: admin@test.com / password123" ;;
  (fun s =>
     let ps := connection_params (self s) in
     (print (nl ++ "Database: " ++ str_of_opt (database ps)) ;;
      print ("Host: " ++ host ps ++ ":" ++ str_of_Z (port ps))) s).

(** No index is created by the statement. *)
Definition no_create_index (q : stmt) : bool :=
  match q with
  | CreateIndex _ _ _ => false
  | _ => true
  end.

(** The statement creates no table, and an index only on a table of the
    data model. *)
Definition index_on_model (q : stmt) : bool :=
  match q with
  | CreateTable _ _ => false
  | CreateIndex _ t _ => mem t data_model
  | _ => true
  end.

(** The tables created so far, after the events [evs]. *)
Fixpoint tables_made (made : list string) (evs : list event) : list string :=
  match evs with
  | [] => made
  | EvExecute (CreateTable t _) true :: evs' => tables_made (t :: made) evs'
  | _ :: evs' => tables_made made evs'
  end.

(** Every CREATE INDEX among the events comes after the successful
    creation of its table. *)
Fixpoint tables_first (made : list string) (evs : list event) : bool :=
  match evs with
  | [] => true
  | EvExecute (CreateTable t _) true :: evs' => tables_first (t :: made) evs'
  | EvExecute (CreateIndex _ t _) _ :: evs' =>
      andb (mem t made) (tables_first made evs')
  | _ :: evs' => tables_first made evs'
  end.

(** The event creates no index. *)
Definition indexless (ev : event) : bool :=
  match ev with
  | EvExecute (CreateIndex _ _ _) _ => false
  | _ => true
  end.

(** What a method does on an object that holds no cursor: the
    [AttributeError] of [None.execute], with the database and the trace
    as they were. *)
Definition refuses_unconnected (m : M state unit) (s : state) : Prop :=
  fst (m s) = inl (none_has_no "execute")
  /\ db (proc (snd (m s))) = db (proc s)
  /\ trace (proc (snd (m s))) = trace (proc s).

(** The row [seed_profiles] inserts for the mentor. *)
Definition mentor_profile (user_id : string) : stmt :=
  InsertInto "mentors" mentor_cols
    [ Param (VText user_id); Param (VText "AFF-I, Tandem, Coach");
      Param (VText "C-12345");
      Param (VText (json_array ["AFF"; "Tandem"; "Coaching"]));
      Param (VInt 3); Param (VInt 85); Param (VBool true) ].

(** No row of [users] carries the identifier. *)
Definition no_user (d : Pg.database) (user_id : string) : bool :=
  negb (existsb (fun r => value_eqb (field "id" r) (VText user_id))
                (rows_of "users" d)).

(** The table [mentors] of the database has the columns [create_tables]
    gives it. *)
Definition mentors_as_created (d : Pg.database) : Prop :=
  exists rows, lookup "mentors" (db_tables d)
               = Some (Table (table_cols mentors_ddl) rows).

(** The computation ends in an exception from every state. *)
Definition raises {A : Type} (m : M state A) : Prop :=
  forall s : state, exists e : exn, fst (m s) = inl e.

(** A database in which [status] exists and [role] does not. *)
Definition half_provisioned_db : Pg.database :=
  Db [("status", ["pending"; "confirmed"; "declined"; "cancelled"])] [] [] 0.












(* ===================================================================== *)
(** * Properties *)
(* ===================================================================== *)

(** ** Configuration: [DatabaseSetup.__init__] *)






(** ** Credential derivation: [hash_password] *)

(** C2 (code defect).  [hash_password] derives nothing: [hashlib] has no
    attribute [pbkdf2_hex], so for every password, and whatever the
    functions of the module compute, the call raises [AttributeError]
    at the attribute lookup and leaves the state as it was.  The salt
    and the 100000 rounds never reach a key-derivation function, and
    two different passwords end in the same exception. *)
Theorem hash_password_raises :
  forall (impl : string -> callable) (password : string) (s : state),
    hash_password impl password s
    = (inl (AttributeError "module 'hashlib' has no attribute 'pbkdf2_hex'"), s).
Proof. intros. reflexivity. Qed.

(** ** The confirmation prompt: [main] *)

(** C9.  With the reset flag given and an answer that does not read
    [yes] once lower-cased, [main] prints the cancellation notice and
    returns: the database is as it was, nothing was asked of the driver
    (no connection, no statement), and no handle was opened. *)
Theorem declined_reset_touches_nothing :
  forall (drv : driver) (uuid4 : nat -> string) (impl : string -> callable)
         (e : environ) (p : process) (answer : string) (rest : list string),
    stdin p = answer :: rest ->
    lower answer <> "yes" ->
    let (r, p') := main drv uuid4 impl true e p in
    r = inr tt
    /\ db p' = db p
    /\ trace p' = trace p
    /\ live p' = live p
    /\ exists prompt, stdout p' = (stdout p ++ [prompt; "Setup cancelled."])%list.
Proof.
  intros drv uuid4 impl e p answer rest Hin Hno.
  unfold main, bind, input. simpl. rewrite Hin.
  destruct (String.eqb (lower answer) "yes") eqn:E.
  - apply String.eqb_eq in E. contradiction.
  - simpl. repeat split. eexists. rewrite <- app_assoc. reflexivity.
Qed.

Lemma declined_reset_touches_nothing_witness :
  lower "y" <> "yes"
  /\ db (snd (main (postgres true) demo_uuid4 demo_hashlib true demo_env
                   (boot curriculum_db ["y"])))
     = curriculum_db.
Proof.
  split; [discriminate|].
  pose proof (declined_reset_touches_nothing
                (postgres true) demo_uuid4 demo_hashlib demo_env
                (boot curriculum_db ["y"]) (answer := "y") (rest := [])
                eq_refl) as H.
  destruct (main (postgres true) demo_uuid4 demo_hashlib true demo_env
                 (boot curriculum_db ["y"])) as [r p'].
  apply H. discriminate.
Defined.

(** ** Releasing the connection: [disconnect] *)

(** C10.  On an object whose [conn] and [cursor] are both unset,
    [disconnect] does nothing and raises nothing.  So when the server
    refuses the connection, [run_setup] ends with exit status 1 after
    the one failed attempt: the cleanup closes nothing, and no handle is
    open afterwards that was not open before. *)
Theorem disconnect_without_connection :
  forall (drv : driver) (uuid4 : nat -> string) (impl : string -> callable)
         (drop_existing : bool) (ps : params) (p : process),
    disconnect (St (Setup ps None None) p) = (inr tt, St (Setup ps None None) p)
    /\ forall msg,
        drv_connect drv ps = Some (Psycopg2Error msg) ->
        let (r, s') := run_setup drv uuid4 impl drop_existing
                                 (St (Setup ps None None) p) in
        r = inl (SystemExit 1)
        /\ self s' = Setup ps None None
        /\ trace (proc s') = (trace p ++ [EvConnect ps false])%list
        /\ live (proc s') = live p
        /\ db (proc s') = db p.
Proof.
  intros drv uuid4 impl flag ps p. split; [reflexivity|].
  intros msg Hc.
  unfold run_setup, try_finally, try_except, setup_body, connect, bind.
  unfold try_except, bind, print, in_proc, psycopg2_connect. simpl.
  rewrite Hc. simpl. repeat split.
Qed.

Lemma disconnect_without_connection_witness :
  drv_connect (postgres false) demo_params
  = Some (Psycopg2Error "could not connect to server")
  /\ fst (run_setup (postgres false) demo_uuid4 demo_hashlib true (fresh empty_db))
     = inl (SystemExit 1).
Proof.
  split; [reflexivity|].
  pose proof (proj2 (disconnect_without_connection
                       (postgres false) demo_uuid4 demo_hashlib true
                       demo_params (boot empty_db []))
                    "could not connect to server" eq_refl) as H.
  unfold fresh.
  destruct (run_setup (postgres false) demo_uuid4 demo_hashlib true
                      (St (Setup demo_params None None) (boot empty_db [])))
    as [r s'].
  apply H.
Defined.

(** ** The catalog under DROP and CREATE *)

Lemma mem_app :
  forall (x : string) (l1 l2 : list string),
    mem x (l1 ++ l2) = orb (mem x l1) (mem x l2).
Proof. intros. unfold mem. apply existsb_app. Qed.

Lemma mem_remove_key :
  forall (A : Type) (x k : string) (l : list (string * A)),
    mem x (map fst (remove_key k l))
    = andb (negb (String.eqb x k)) (mem x (map fst l)).
Proof.
  intros A x k l. induction l as [|[k' v] l IH]; simpl.
  - now rewrite andb_false_r.
  - destruct (String.eqb k' k) eqn:Ek; simpl.
    + rewrite IH. apply String.eqb_eq in Ek. subst k'.
      destruct (String.eqb x k); reflexivity.
    + rewrite IH. destruct (String.eqb x k') eqn:Ex; simpl.
      * apply String.eqb_eq in Ex. subst k'. rewrite Ek. reflexivity.
      * reflexivity.
Qed.

Lemma drop_table_names :
  forall (t : string) (d : Pg.database),
    map fst (db_tables (drop_table t d)) = map fst (remove_key t (db_tables d)).
Proof.
  intros. unfold drop_table. simpl. rewrite map_map. reflexivity.
Qed.

Lemma has_table_drop_table :
  forall (x t : string) (d : Pg.database),
    has_table x (drop_table t d)
    = andb (negb (String.eqb x t)) (has_table x d).
Proof.
  intros. unfold has_table. rewrite drop_table_names. apply mem_remove_key.
Qed.

Lemma has_type_drop_table :
  forall (x t : string) (d : Pg.database),
    has_type x (drop_table t d) = has_type x d.
Proof. reflexivity. Qed.

Lemma has_table_drop_type :
  forall (x n : string) (d : Pg.database),
    has_table x (drop_type n d) = has_table x d.
Proof.
  intros. unfold has_table, drop_type. simpl. rewrite map_map. reflexivity.
Qed.

Lemma has_type_drop_type :
  forall (x n : string) (d : Pg.database),
    has_type x (drop_type n d) = andb (negb (String.eqb x n)) (has_type x d).
Proof. intros. unfold has_type, drop_type. simpl. apply mem_remove_key. Qed.

Lemma create_type_inv :
  forall (n : string) (labels : list string) (d d' : Pg.database),
    create_type n labels d = inr d' ->
    d' = Db (db_types d ++ [(n, labels)]) (db_tables d) (db_indexes d)
            (db_serial d)
    /\ has_type n d = false /\ has_table n d = false.
Proof.
  intros n labels d d'. unfold create_type, has_type, has_table, err.
  destruct (negb (ident_ok n)); [discriminate|].
  destruct (mem n (map fst (db_types d))); [discriminate|].
  destruct (mem n (map fst (db_tables d))); [discriminate|]. simpl.
  destruct (negb (nodupb labels)); [discriminate|].
  intros H. inversion H. auto.
Qed.

Lemma create_table_inv :
  forall (t : string) (cols : list column) (d d' : Pg.database),
    create_table t cols d = inr d' ->
    d' = Db (db_types d) (db_tables d ++ [(t, Table cols [])]) (db_indexes d)
            (db_serial d)
    /\ has_table t d = false.
Proof.
  intros t cols d d'. unfold create_table, has_table, err.
  destruct (negb (ident_ok t)); [discriminate|].
  destruct (find _ cols); [discriminate|].
  destruct (mem t (map fst (db_tables d))); [discriminate|]. simpl.
  repeat match goal with
         | |- (if ?b then _ else _) = _ -> _ => destruct b; [discriminate|]
         end.
  intros H. inversion H. auto.
Qed.

(** The reserved word among the column names of [progression_steps]
    makes its CREATE TABLE a syntax error, whatever the database. *)
Lemma progression_steps_ddl_rejected :
  forall d : Pg.database,
    Pg.execute progression_steps_ddl d
    = inl (Psycopg2Error "syntax error at or near references").
Proof. intros. reflexivity. Qed.

(** ** Statements sent over a connected session *)

(** [s'] is [s] after statements over its cursor: the session is still
    connected, with the same handles and configuration; the trace grew
    by [evs] and the database is [d]. *)
Definition advanced (s s' : state) (d : Pg.database) (evs : list event) : Prop :=
  connected s' = true
  /\ handles s' = handles s
  /\ connection_params (self s') = connection_params (self s)
  /\ uuid_calls (proc s') = uuid_calls (proc s)
  /\ trace (proc s') = (trace (proc s) ++ evs)%list
  /\ db (proc s') = d.

Lemma for_each_map :
  forall (S X Y : Type) (g : X -> Y) (f : Y -> M S unit) (l : list X) (s : S),
    for_each l (fun x => f (g x)) s = for_each (map g l) f s.
Proof.
  intros S X Y g f l. induction l as [|x l IH]; intros s; simpl.
  - reflexivity.
  - unfold bind. destruct (f (g x) s) as [[e|[]] s1]; auto.
Qed.

Lemma for_each_app :
  forall (S X : Type) (f : X -> M S unit) (l1 l2 : list X) (s : S),
    for_each (l1 ++ l2) f s = (for_each l1 f ;; for_each l2 f) s.
Proof.
  intros S X f l1 l2. induction l1 as [|x l1 IH]; intros s; simpl.
  - reflexivity.
  - unfold bind in *. destruct (f x s) as [[e|[]] s1]; auto.
Qed.

Lemma connected_cursor :
  forall s : state,
    connected s = true ->
    exists c, cursor (self s) = Some c /\ cursor_open c (proc s) = true.
Proof.
  intros s H. unfold connected in H.
  destruct (cursor (self s)) as [c|]; [eauto | discriminate].
Qed.

(** One statement on PostgreSQL over a connected session. *)
Lemma cursor_execute_postgres :
  forall (up : bool) (q : stmt) (s : state),
    connected s = true ->
    exists s' ev,
      cursor_execute (postgres up) q s
      = (outcome (apply_all [q] (db (proc s))), s')
      /\ advanced s s' (reach [q] (db (proc s))) [ev]
      /\ ev = EvExecute q (match Pg.execute q (db (proc s)) with
                           | inl _ => false
                           | inr _ => true
                           end).
Proof.
  intros up q s Hc. destruct (connected_cursor s Hc) as (c & Hcur & Hopen).
  unfold cursor_execute, connected, advanced, handles. rewrite Hcur, Hopen.
  simpl.
  destruct (Pg.execute q (db (proc s))) as [e|[d rows]] eqn:E; simpl.
  - do 2 eexists. split; [reflexivity|]. simpl. rewrite Hcur.
    repeat split; auto.
  - do 2 eexists. split; [reflexivity|]. simpl.
    unfold cursor_open in *. simpl. repeat split; auto.
Qed.

(** A list of statements on PostgreSQL over a connected session: the
    loop ends as [apply_all] does, in the database [reach] computes. *)
Lemma run_stmts :
  forall (up : bool) (qs : list stmt) (s : state),
    connected s = true ->
    exists s' evs,
      for_each qs (cursor_execute (postgres up)) s
      = (outcome (apply_all qs (db (proc s))), s')
      /\ advanced s s' (reach qs (db (proc s))) evs
      /\ (forall d, apply_all qs (db (proc s)) = inr d -> evs = executed qs)
      /\ forallb is_execute evs = true.
Proof.
  intros up qs. induction qs as [|q qs IH]; intros s Hc.
  - exists s, []. simpl. unfold ret, advanced. rewrite app_nil_r. auto 10.
  - destruct (cursor_execute_postgres up q s Hc) as (s1 & ev & Hrun & Hadv & Hev).
    simpl. unfold bind. rewrite Hrun.
    unfold advanced in Hadv. simpl in Hadv.
    destruct Hadv as (Hc1 & Hh & Hp & Hu & Ht & Hd).
    destruct (Pg.execute q (db (proc s))) as [e|[d rows]] eqn:E;
      simpl; rewrite ?E; simpl.
    + exists s1, [ev]. unfold advanced. subst ev.
      repeat split; auto. discriminate.
    + destruct (IH s1 Hc1) as (s2 & evs & Hrun2 & Hadv2 & Hevs & Hex).
      rewrite Hd in *. rewrite Hrun2.
      destruct Hadv2 as (Hc2 & Hh2 & Hp2 & Hu2 & Ht2 & Hd2).
      exists s2, (ev :: evs). unfold advanced.
      repeat split; try congruence.
      * rewrite Ht2, Ht, <- app_assoc. reflexivity.
      * intros d0 H0. rewrite (Hevs d0 H0). subst ev. reflexivity.
      * subst ev. simpl. exact Hex.
Qed.

Lemma print_run :
  forall (line : string) (s : state),
    print line s
    = (inr tt, St (self s) (set_stdout (stdout (proc s) ++ [line]) (proc s))).
Proof. reflexivity. Qed.

Lemma connected_print :
  forall (line : string) (s : state),
    connected (St (self s) (set_stdout (stdout (proc s) ++ [line]) (proc s)))
    = connected s.
Proof. reflexivity. Qed.

Lemma advanced_print :
  forall (line : string) (s : state) (d : Pg.database),
    connected s = true -> db (proc s) = d ->
    advanced s (St (self s) (set_stdout (stdout (proc s) ++ [line]) (proc s)))
             d [].
Proof.
  intros line s d Hc Hd. unfold advanced, handles. simpl. rewrite app_nil_r.
  rewrite connected_print. auto 10.
Qed.

Lemma advanced_trans :
  forall (s s1 s2 : state) (d1 d2 : Pg.database) (e1 e2 : list event),
    advanced s s1 d1 e1 -> advanced s1 s2 d2 e2 ->
    advanced s s2 d2 (e1 ++ e2).
Proof.
  unfold advanced. intros s s1 s2 d1 d2 e1 e2
    (Hc1 & Hh1 & Hp1 & Hu1 & Ht1 & Hd1) (Hc2 & Hh2 & Hp2 & Hu2 & Ht2 & Hd2).
  repeat split; try congruence.
  rewrite Ht2, Ht1, app_assoc. reflexivity.
Qed.

(** A method of the shape: a banner, a list of statements, a closing
    line. *)
Lemma run_block :
  forall (up : bool) (a b : string) (qs : list stmt) (s : state),
    connected s = true ->
    exists s' evs,
      (print a ;; for_each qs (cursor_execute (postgres up)) ;; print b) s
      = (outcome (apply_all qs (db (proc s))), s')
      /\ advanced s s' (reach qs (db (proc s))) evs
      /\ (forall d, apply_all qs (db (proc s)) = inr d -> evs = executed qs)
      /\ forallb is_execute evs = true.
Proof.
  intros up a b qs s Hc. unfold bind at 1. rewrite print_run.
  set (s0 := St (self s) (set_stdout (stdout (proc s) ++ [a]) (proc s))).
  assert (H0 : advanced s s0 (db (proc s)) [])
    by (apply advanced_print; [exact Hc | reflexivity]).
  assert (Hc0 : connected s0 = true) by exact Hc.
  destruct (run_stmts up qs s0 Hc0) as (s1 & evs & Hrun & Hadv & Hevs & Hex).
  change (db (proc s0)) with (db (proc s)) in *.
  unfold bind. rewrite Hrun.
  destruct (apply_all qs (db (proc s))) as [e|d] eqn:E; simpl.
  - exists s1, evs. split; [reflexivity|].
    split; [exact (advanced_trans H0 Hadv)|]. split; assumption.
  - rewrite print_run. eexists. exists evs. split; [reflexivity|].
    split; [|split; assumption].
    rewrite <- (app_nil_r evs).
    apply (advanced_trans (e1 := []) (e2 := evs ++ []) H0).
    apply (advanced_trans Hadv).
    apply advanced_print; unfold advanced in Hadv; tauto.
Qed.

Lemma drop_existing_schema_block :
  forall (drv : driver) (s : state),
    drop_existing_schema drv s
    = (print "⚠️  Dropping existing schema..." ;;
       for_each drop_stmts (cursor_execute drv) ;;
       print "✓ Existing schema dropped") s.
Proof.
  intros drv s. unfold drop_existing_schema, drop_stmts, bind.
  destruct (print _ s) as [[e|[]] s0]; [reflexivity|].
  rewrite for_each_app. unfold bind.
  rewrite <- !for_each_map.
  destruct (for_each drop_tables _ s0) as [[e|[]] s1]; reflexivity.
Qed.

Lemma create_enums_block :
  forall (drv : driver) (s : state),
    create_enums drv s
    = (print "Creating enums..." ;;
       for_each enum_stmts (cursor_execute drv) ;;
       print "✓ Enums created") s.
Proof.
  intros drv s. unfold create_enums, enum_stmts, bind.
  destruct (print _ s) as [[e|[]] s0]; [reflexivity|].
  rewrite <- for_each_map. reflexivity.
Qed.

Lemma create_tables_block :
  forall (drv : driver) (s : state),
    create_tables drv s
    = (print "Creating tables..." ;;
       for_each tables_ddl (cursor_execute drv) ;;
       print "✓ Tables created") s.
Proof.
  intros drv s. unfold create_tables, tables_ddl, bind.
  destruct (print _ s) as [[e|[]] s0]; [reflexivity|].
  simpl. unfold bind.
  repeat match goal with
         | |- context [cursor_execute drv ?q ?st] =>
             destruct (cursor_execute drv q st) as [[?e|[]] ?s]; try reflexivity
         end.
Qed.

Lemma apply_all_drop_stmts :
  forall d : Pg.database, apply_all drop_stmts d = inr (reach drop_stmts d).
Proof. intros. reflexivity. Qed.

(** ** Schema reset: [drop_existing_schema] *)

Lemma reach_drop_stmts :
  forall d : Pg.database,
    reach drop_stmts d
    = fold_left (fun d n => drop_type n d) drop_enums
                (fold_left (fun d t => drop_table t d) drop_tables d).
Proof. intros. reflexivity. Qed.

Lemma no_target_after_drop :
  forall d : Pg.database,
    (forall t, In t drop_tables -> has_table t (reach drop_stmts d) = false)
    /\ (forall n, In n drop_enums -> has_type n (reach drop_stmts d) = false).
Proof.
  intros d. rewrite reach_drop_stmts. unfold drop_tables, drop_enums.
  split; intros x Hx; simpl in Hx; simpl fold_left;
    repeat rewrite ?has_table_drop_type, ?has_type_drop_type,
                   ?has_table_drop_table, ?has_type_drop_table;
    repeat (destruct Hx as [<- | Hx]; [reflexivity|]); contradiction.
Qed.

Lemma drop_existing_schema_run :
  forall (up : bool) (s : state),
    connected s = true ->
    exists s',
      drop_existing_schema (postgres up) s = (inr tt, s')
      /\ advanced s s' (reach drop_stmts (db (proc s))) (executed drop_stmts).
Proof.
  intros up s Hc. rewrite drop_existing_schema_block.
  destruct (run_block up "⚠️  Dropping existing schema..."
                      "✓ Existing schema dropped" drop_stmts s Hc)
    as (s' & evs & Hrun & Hadv & Hevs & _).
  rewrite apply_all_drop_stmts in Hrun, Hevs.
  rewrite (Hevs _ eq_refl) in Hadv. exists s'. auto.
Qed.



(** ** What the methods ask of any driver *)

Lemma setup_body_split :
  forall (drv : driver) (uuid4 : nat -> string) (impl : string -> callable)
         (drop_existing : bool),
    setup_body drv uuid4 impl drop_existing
    = (connect drv ;; after_connect drv uuid4 impl drop_existing).
Proof. reflexivity. Qed.

Lemma clean_app :
  forall e1 e2 : list event, clean (e1 ++ e2) = andb (clean e1) (clean e2).
Proof. intros. apply forallb_app. Qed.

Lemma clean_abrupt :
  forall evs : list event, clean evs = true -> abrupt evs = true.
Proof.
  unfold abrupt, clean. intros evs. induction evs as [|ev evs IH]; simpl.
  - reflexivity.
  - destruct evs as [|ev' evs]; [reflexivity|].
    intros H. apply andb_true_iff in H. destruct H as [H1 H2].
    simpl in *. rewrite H1. simpl. apply IH. exact H2.
Qed.

Lemma abrupt_app :
  forall e1 e2 : list event,
    clean e1 = true -> abrupt e2 = true -> abrupt (e1 ++ e2) = true.
Proof.
  intros e1 e2 H1 H2. destruct e2 as [|ev e2].
  - rewrite app_nil_r. apply clean_abrupt. exact H1.
  - unfold abrupt in *. rewrite removelast_app by discriminate.
    rewrite clean_app, H1, H2. reflexivity.
Qed.

Lemma outcome_ok_app :
  forall (A : Type) (r : exn + A) (e1 e2 : list event),
    clean e1 = true -> outcome_ok r e2 = true -> outcome_ok r (e1 ++ e2) = true.
Proof.
  intros A r e1 e2 H1 H2. destruct r; simpl in *.
  - apply abrupt_app; assumption.
  - rewrite clean_app, H1, H2. reflexivity.
Qed.

Lemma quiet_weaken :
  forall (A : Type) (P Q : stmt -> bool) (m : M state A),
    (forall q, P q = true -> Q q = true) -> quiet P m -> quiet Q m.
Proof.
  intros A P Q m HPQ Hm s. destruct (Hm s) as (evs & H1 & H2 & H3 & H4 & H5).
  exists evs. repeat split; auto.
  rewrite forallb_forall in *. intros ev Hev. specialize (H4 ev Hev).
  destruct ev; simpl in *; auto; discriminate.
Qed.

Section Quiet.

Variable drv : driver.
Variable uuid4 : nat -> string.
Variable impl : string -> callable.
Variable P : stmt -> bool.

Lemma quiet_lift : forall (A : Type) (r : exn + A), quiet P (lift r).
Proof.
  intros A r s. exists []. simpl. rewrite app_nil_r.
  repeat split; auto. destruct r; reflexivity.
Qed.

Lemma quiet_ret : forall (A : Type) (a : A), quiet P (ret a).
Proof. intros A a. exact (quiet_lift (inr a)). Qed.

Lemma quiet_raise : forall (A : Type) (e : exn), quiet P (raise (A := A) e).
Proof. intros A e. exact (quiet_lift (inl e)). Qed.

Lemma quiet_print : forall line : string, quiet P (print line).
Proof.
  intros line s. exists []. simpl. rewrite app_nil_r. repeat split; auto.
Qed.

Lemma quiet_new_uuid : quiet P (new_uuid uuid4).
Proof.
  intros s. exists []. simpl. rewrite app_nil_r. repeat split; auto.
Qed.

Lemma quiet_getitem :
  forall (d : list (string * string)) (k : string), quiet P (getitem d k).
Proof.
  intros d k. unfold getitem. destruct (lookup k d).
  - apply quiet_ret.
  - apply quiet_raise.
Qed.

Lemma quiet_bind :
  forall (A B : Type) (m : M state A) (k : A -> M state B),
    quiet P m -> (forall a, quiet P (k a)) -> quiet P (bind m k).
Proof.
  intros A B m k Hm Hk s. unfold bind.
  destruct (Hm s) as (e1 & H1 & H2 & H3 & H4 & H5).
  destruct (m s) as [[e|a] s1]; simpl in *.
  - exists e1. repeat split; auto.
  - destruct (Hk a s1) as (e2 & K1 & K2 & K3 & K4 & K5).
    exists (e1 ++ e2)%list. repeat split; try congruence.
    + rewrite K3, H3, app_assoc. reflexivity.
    + rewrite forallb_app, H4, K4. reflexivity.
    + apply outcome_ok_app; assumption.
Qed.

Lemma quiet_for_each :
  forall (X : Type) (l : list X) (f : X -> M state unit),
    (forall x, quiet P (f x)) -> quiet P (for_each l f).
Proof.
  intros X l f Hf. induction l as [|x l IH]; simpl.
  - apply quiet_ret.
  - apply quiet_bind; auto.
Qed.

Lemma quiet_for_each_in :
  forall (X : Type) (l : list X) (f : X -> M state unit),
    (forall x, In x l -> quiet P (f x)) -> quiet P (for_each l f).
Proof.
  intros X l f. induction l as [|x l IH]; intros Hf; simpl.
  - apply quiet_ret.
  - apply quiet_bind.
    + apply Hf. left. reflexivity.
    + intros _. apply IH. intros y Hy. apply Hf. right. exact Hy.
Qed.

Lemma quiet_cursor_execute :
  forall q : stmt, P q = true -> quiet P (cursor_execute drv q).
Proof.
  intros q HP s. unfold cursor_execute, handles.
  destruct (cursor (self s)) as [c|] eqn:Hcur.
  - destruct (cursor_open c (proc s)); simpl.
    + destruct (drv_execute drv q (db (proc s))) as [e|[d rows]]; simpl.
      * exists [EvExecute q false]. simpl. rewrite Hcur, HP. auto.
      * exists [EvExecute q true]. simpl. rewrite HP. auto.
    + exists []. simpl. rewrite Hcur, app_nil_r. auto.
  - exists []. simpl. rewrite Hcur, app_nil_r. auto.
Qed.

Lemma quiet_fetchone : quiet P fetchone.
Proof.
  intros s. unfold fetchone, handles. exists [].
  destruct (cursor (self s)) as [c|] eqn:Hcur;
    [destruct (cursor_open c (proc s)); [destruct (cur_rows c) as [[|r rs]|]|]|];
    simpl; rewrite ?Hcur, app_nil_r; auto.
Qed.

Lemma quiet_fetchall : quiet P fetchall.
Proof.
  intros s. unfold fetchall, handles. exists [].
  destruct (cursor (self s)) as [c|] eqn:Hcur;
    [destruct (cursor_open c (proc s)); [destruct (cur_rows c) as [rs|]|]|];
    simpl; rewrite ?Hcur, app_nil_r; auto.
Qed.

Lemma quiet_hash_password :
  forall password : string, quiet P (hash_password impl password).
Proof.
  intros password. unfold hash_password.
  apply quiet_bind; [apply quiet_lift | intros f; apply quiet_lift].
Qed.

End Quiet.

Ltac quiet_stmt :=
  first
    [ reflexivity
    | repeat match goal with
             | x : (_ * _)%type |- _ => destruct x
             end;
      reflexivity
    | match goal with
      | H : In _ _ |- _ =>
          simpl in H;
          repeat (destruct H as [<- | H]; [reflexivity|]);
          contradiction
      end ].

Ltac quiet_step :=
  first
    [ apply quiet_print
    | apply quiet_new_uuid
    | apply quiet_getitem
    | apply quiet_fetchone
    | apply quiet_fetchall
    | apply quiet_hash_password
    | apply quiet_cursor_execute; quiet_stmt
    | apply quiet_for_each_in; intros ? ?
    | apply quiet_bind; [|intros ?]
    | apply quiet_lift
    | apply quiet_ret ].

Ltac quiet_auto := repeat quiet_step.

Section Methods.

Variable drv : driver.
Variable uuid4 : nat -> string.
Variable impl : string -> callable.

Lemma quiet_drop_existing_schema :
  quiet no_create_table (drop_existing_schema drv).
Proof. unfold drop_existing_schema. quiet_auto. Qed.

Lemma quiet_create_enums : quiet no_create_table (create_enums drv).
Proof. unfold create_enums. quiet_auto. Qed.

Lemma quiet_create_tables : quiet uses_known_enums (create_tables drv).
Proof. unfold create_tables. quiet_auto. Qed.

Lemma quiet_create_indexes : quiet no_create_table (create_indexes drv).
Proof. unfold create_indexes, indexes. quiet_auto. Qed.

Lemma quiet_seed_users_loop :
  forall (data : list user_data) (user_ids : list (string * string)),
    quiet no_create_table (seed_users_loop drv uuid4 impl data user_ids).
Proof.
  intros data. induction data as [|u data IH]; intros user_ids; simpl.
  - apply quiet_ret.
  - quiet_auto. apply IH.
Qed.

Lemma quiet_seed_users : quiet no_create_table (seed_users drv uuid4 impl).
Proof.
  unfold seed_users.
  apply quiet_bind; [apply quiet_print | intros _].
  apply quiet_bind; [apply quiet_seed_users_loop | intros user_ids].
  quiet_auto.
Qed.

Lemma quiet_seed_profiles :
  forall user_ids, quiet no_create_table (seed_profiles drv user_ids).
Proof. intros. unfold seed_profiles. quiet_auto. Qed.

Lemma quiet_seed_progression_steps :
  quiet no_create_table (seed_progression_steps drv).
Proof. unfold seed_progression_steps. quiet_auto. Qed.

Lemma quiet_seed_badges : quiet no_create_table (seed_badges drv).
Proof. unfold seed_badges. quiet_auto. Qed.

Lemma quiet_seed_sample_data :
  forall user_ids, quiet no_create_table (seed_sample_data drv uuid4 user_ids).
Proof. intros. unfold seed_sample_data. quiet_auto. Qed.

Lemma quiet_verify_setup : quiet no_create_table (verify_setup drv).
Proof. unfold verify_setup. quiet_auto. Qed.

Lemma no_create_table_known :
  forall q : stmt, no_create_table q = true -> uses_known_enums q = true.
Proof. intros q. destruct q; simpl; auto; discriminate. Qed.

Lemma quiet_summary :
  forall P : stmt -> bool,
    quiet P (fun s =>
               let ps := connection_params (self s) in
               (print (nl ++ "Database: " ++ str_of_opt (database ps)) ;;
                print ("Host: " ++ host ps ++ ":" ++ str_of_Z (port ps))) s).
Proof.
  intros P s. exists []. simpl. rewrite app_nil_r. repeat split; auto.
Qed.

Lemma quiet_after_enums : quiet uses_known_enums (after_enums drv uuid4 impl).
Proof.
  pose proof no_create_table_known as W.
  unfold after_enums.
  apply quiet_bind; [apply quiet_create_tables | intros _].
  apply quiet_bind;
    [apply quiet_weaken with (P := no_create_table); [exact W | apply quiet_create_indexes] | intros _].
  apply quiet_bind;
    [apply quiet_weaken with (P := no_create_table); [exact W | apply quiet_seed_users] | intros user_ids].
  apply quiet_bind;
    [apply quiet_weaken with (P := no_create_table); [exact W | apply quiet_seed_profiles] | intros _].
  apply quiet_bind;
    [apply quiet_weaken with (P := no_create_table); [exact W | apply quiet_seed_progression_steps] | intros _].
  apply quiet_bind;
    [apply quiet_weaken with (P := no_create_table); [exact W | apply quiet_seed_badges] | intros _].
  apply quiet_bind;
    [apply quiet_weaken with (P := no_create_table); [exact W | apply quiet_seed_sample_data] | intros _].
  apply quiet_bind;
    [apply quiet_weaken with (P := no_create_table); [exact W | apply quiet_verify_setup] | intros _].
  repeat (apply quiet_bind; [apply quiet_print | intros _]).
  apply quiet_summary.
Qed.


End Methods.

(** ** [connect], [disconnect] and the [try] of [run_setup] *)


Lemma in_removen :
  forall (h n : nat) (l : list nat), In h (removen n l) -> In h l /\ h <> n.
Proof.
  unfold removen. intros h n l H. apply filter_In in H. destruct H as [H1 H2].
  split; [exact H1|]. intros ->. rewrite Nat.eqb_refl in H2. discriminate.
Qed.

Section Bracket.

Variable drv : driver.
Variable uuid4 : nat -> string.
Variable impl : string -> callable.

Lemma connect_spec :
  forall s : state,
  exists evs : list event,
    tracked s (snd (connect drv s))
    /\ connection_params (self (snd (connect drv s))) = connection_params (self s)
    /\ trace (proc (snd (connect drv s))) = (trace (proc s) ++ evs)%list
    /\ forallb (fun ev => negb (is_execute ev)) evs = true
    /\ outcome_ok (fst (connect drv s)) evs = true
    /\ db (proc (snd (connect drv s))) = db (proc s).
Proof.
  intros s. unfold connect, try_except, bind, print, in_proc, print_p,
    psycopg2_connect, conn_cursor, sys_exit, raise, tracked. simpl.
  destruct (drv_connect drv (connection_params (self s))) as [e|].
  - exists [EvConnect (connection_params (self s)) false].
    destruct (is_psycopg2_Error e); simpl; repeat split; auto.
  - simpl. rewrite Nat.eqb_refl. simpl.
    destruct (drv_cursor drv) as [e|].
    + exists [EvConnect (connection_params (self s)) true;
              EvCursor (next_handle (proc s)) false].
      destruct (is_psycopg2_Error e); simpl; rewrite <- app_assoc;
        repeat split; auto; intros h [<- | Hh]; auto.
    + exists [EvConnect (connection_params (self s)) true;
              EvCursor (next_handle (proc s)) true].
      simpl. rewrite <- app_assoc.
      repeat split; auto. intros h [<- | [<- | Hh]]; auto.
Qed.

Lemma disconnect_spec :
  forall s : state,
  exists closes : list event,
    fst (disconnect s) = inr tt
    /\ self (snd (disconnect s)) = self s
    /\ (forall h, In h (live (proc (snd (disconnect s)))) ->
                  In h (live (proc s))
                  /\ conn (self s) <> Some h
                  /\ option_map cur_id (cursor (self s)) <> Some h)
    /\ trace (proc (snd (disconnect s))) = (trace (proc s) ++ closes)%list
    /\ forallb is_close closes = true
    /\ db (proc (snd (disconnect s))) = db (proc s)
    /\ stdout (proc (snd (disconnect s))) = stdout (proc s).
Proof.
  intros s. unfold disconnect, bind, in_proc, cursor_close, conn_close.
  destruct (cursor (self s)) as [c|] eqn:Hcur;
    destruct (conn (self s)) as [h0|] eqn:Hconn; simpl;
    rewrite ?Hcur, ?Hconn; simpl.
  - exists [EvCloseCursor (cur_id c); EvCloseConn h0]. rewrite <- app_assoc.
    repeat split; auto; apply in_removen in H; destruct H as [H H1];
      apply in_removen in H; destruct H as [H H2]; auto; congruence.
  - exists [EvCloseCursor (cur_id c)].
    repeat split; auto; apply in_removen in H; destruct H as [H H1];
      auto; congruence.
  - exists [EvCloseConn h0].
    repeat split; auto; apply in_removen in H; destruct H as [H H1];
      auto; congruence.
  - exists []. rewrite app_nil_r. repeat split; auto; discriminate.
Qed.


Lemma run_setup_bracket :
  forall (drop_existing : bool) (s : state),
    run_setup drv uuid4 impl drop_existing s
    = try_finally
        (try_except (setup_body drv uuid4 impl drop_existing) is_Exception
                    (fun e => print (failure_line e) ;; sys_exit 1%Z))
        disconnect (announced s).
Proof. reflexivity. Qed.

Lemma finally_disconnect :
  forall (body : M state unit) (s : state),
    try_finally body disconnect s
    = (fst (body s), snd (disconnect (snd (body s)))).
Proof.
  intros body s. unfold try_finally. destruct (body s) as [r s1]. simpl.
  destruct (disconnect_spec s1) as (closes & H & _).
  destruct (disconnect s1) as [rd sd]. simpl in *. subst rd. reflexivity.
Qed.


End Bracket.

(** ** Schema creation: [create_enums] before [create_tables] *)

Lemma mem_In : forall (x : string) (l : list string), mem x l = true <-> In x l.
Proof.
  intros x l. unfold mem. rewrite existsb_exists. split.
  - intros (y & Hy & E). apply String.eqb_eq in E. subst y. exact Hy.
  - intros H. exists x. split; [exact H | apply String.eqb_refl].
Qed.

Lemma created_by_mono :
  forall (evs : list event) (c : list string) (n : string),
    mem n c = true -> mem n (created_by c evs) = true.
Proof.
  intros evs. induction evs as [|ev evs IH]; intros c n H; simpl; auto.
  destruct ev as [| |q ok| |]; auto.
  destruct q; auto. destruct ok; auto.
  apply IH. simpl. rewrite H. apply orb_true_r.
Qed.

Lemma enums_first_app :
  forall (e1 e2 : list event) (c : list string),
    enums_first c (e1 ++ e2)
    = andb (enums_first c e1) (enums_first (created_by c e1) e2).
Proof.
  intros e1. induction e1 as [|ev e1 IH]; intros e2 c; simpl; auto.
  destruct ev as [| |q ok| |]; auto.
  destruct q; auto.
  - destruct ok; auto.
  - rewrite IH. rewrite andb_assoc. reflexivity.
Qed.

Lemma enums_first_harmless :
  forall (evs : list event) (c : list string),
    forallb harmless evs = true -> enums_first c evs = true.
Proof.
  intros evs. induction evs as [|ev evs IH]; intros c H; simpl in *; auto.
  apply andb_true_iff in H. destruct H as [H1 H2].
  destruct ev as [| |q ok| |]; auto.
  destruct q; auto; [destruct ok; auto | discriminate].
Qed.

Lemma enums_first_known :
  forall (evs : list event) (c : list string),
    (forall n, In n (map fst enums) -> mem n c = true) ->
    forallb (sends uses_known_enums) evs = true ->
    enums_first c evs = true.
Proof.
  intros evs. induction evs as [|ev evs IH]; intros c Hc H; simpl in *; auto.
  apply andb_true_iff in H. destruct H as [H1 H2].
  destruct ev as [| |q ok| |]; try discriminate.
  destruct q; auto.
  - destruct ok; auto. apply IH; auto.
    intros n0 Hn0. simpl. rewrite (Hc n0 Hn0). apply orb_true_r.
  - rewrite (IH c Hc H2), andb_true_r.
    simpl in H1. rewrite forallb_forall in *. intros col Hcol.
    specialize (H1 col Hcol). destruct (ctype col); auto.
    apply Hc. exact (proj1 (mem_In n (map fst enums)) H1).
Qed.

Lemma harmless_weaken :
  forall (Q : event -> bool) (evs : list event),
    (forall ev, Q ev = true -> harmless ev = true) ->
    forallb Q evs = true -> forallb harmless evs = true.
Proof.
  intros Q evs HQ H. rewrite forallb_forall in *. auto.
Qed.

Lemma harmless_no_create_table :
  forall ev, sends no_create_table ev = true -> harmless ev = true.
Proof. intros [| |[] ok| |]; simpl; auto. Qed.

Lemma harmless_not_execute :
  forall ev, negb (is_execute ev) = true -> harmless ev = true.
Proof. intros [| |[] ok| |]; simpl; auto. Qed.

Lemma harmless_close : forall ev, is_close ev = true -> harmless ev = true.
Proof. intros [| |[] ok| |]; simpl; auto. Qed.

Section Ordering.

Variable drv : driver.
Variable uuid4 : nat -> string.
Variable impl : string -> callable.

(** Statements that all succeeded leave exactly their events. *)
Lemma run_stmts_trace :
  forall (qs : list stmt) (s : state),
    fst (for_each qs (cursor_execute drv) s) = inr tt ->
    trace (proc (snd (for_each qs (cursor_execute drv) s)))
    = (trace (proc s) ++ executed qs)%list.
Proof.
  intros qs. induction qs as [|q qs IH]; intros s; simpl.
  - intros _. rewrite app_nil_r. reflexivity.
  - unfold bind.
    destruct (cursor_execute drv q s) as [[e|[]] s1] eqn:E; simpl;
      [discriminate|].
    intros H. rewrite (IH s1 H).
    assert (Ht : trace (proc s1) = (trace (proc s) ++ [EvExecute q true])%list).
    { unfold cursor_execute in E.
      destruct (cursor (self s)) as [c|]; [|discriminate].
      destruct (negb (cursor_open c (proc s))); [discriminate|].
      destruct (drv_execute drv q (db (proc s))) as [e|[d rows]];
        [discriminate|].
      inversion E. reflexivity. }
    rewrite Ht, <- app_assoc. reflexivity.
Qed.

Lemma create_enums_trace :
  forall s : state,
    fst (create_enums drv s) = inr tt ->
    trace (proc (snd (create_enums drv s)))
    = (trace (proc s) ++ executed enum_stmts)%list.
Proof.
  intros s. rewrite create_enums_block. unfold bind.
  rewrite (print_run "Creating enums..." s). cbv beta iota.
  set (s0 := St (self s) (set_stdout (stdout (proc s) ++ ["Creating enums..."])
                                     (proc s))).
  pose proof (run_stmts_trace enum_stmts s0) as H.
  destruct (for_each enum_stmts (cursor_execute drv) s0) as [[e|[]] s1].
  - intros D. discriminate D.
  - intros _. exact (H eq_refl).
Qed.

Lemma after_connect_enums_first :
  forall (drop_existing : bool) (s : state) (c : list string),
  exists evs : list event,
    trace (proc (snd (after_connect drv uuid4 impl drop_existing s)))
    = (trace (proc s) ++ evs)%list
    /\ enums_first c evs = true.
Proof.
  intros flag s c. unfold after_connect, bind.
  assert (H2 : quiet no_create_table
                 (if flag then drop_existing_schema drv else ret tt)).
  { destruct flag; [apply quiet_drop_existing_schema | apply quiet_ret]. }
  destruct (H2 s) as (e2 & _ & _ & Ht2 & Hs2 & _).
  destruct ((if flag then drop_existing_schema drv else ret tt) s)
    as [[e|[]] s2]; simpl in *.
  { exists e2. split; [exact Ht2|]. apply enums_first_harmless.
    exact (harmless_weaken _ _ harmless_no_create_table Hs2). }
  destruct (quiet_create_enums drv s2) as (e3 & _ & _ & Ht3 & Hs3 & _).
  pose proof (create_enums_trace s2) as Hexact.
  destruct (create_enums drv s2) as [[e|[]] s3]; simpl in *.
  { exists (e2 ++ e3)%list. split.
    - rewrite Ht3, Ht2, app_assoc. reflexivity.
    - apply enums_first_harmless. rewrite forallb_app.
      rewrite (harmless_weaken _ _ harmless_no_create_table Hs2).
      rewrite (harmless_weaken _ _ harmless_no_create_table Hs3).
      reflexivity. }
  specialize (Hexact eq_refl).
  destruct (quiet_after_enums drv uuid4 impl s3) as (e4 & _ & _ & Ht4 & Hs4 & _).
  exists (e2 ++ executed enum_stmts ++ e4)%list. split.
  - rewrite Ht4, Hexact, Ht2, <- !app_assoc. reflexivity.
  - rewrite !enums_first_app.
    rewrite (enums_first_harmless e2 c
               (harmless_weaken _ _ harmless_no_create_table Hs2)).
    simpl. apply enums_first_known; [|exact Hs4].
    intros n Hn. simpl in Hn.
    destruct Hn as [<- | [<- | [<- | [<- | []]]]]; simpl;
      rewrite ?String.eqb_refl, ?orb_true_r; reflexivity.
Qed.

Lemma run_setup_enums_first :
  forall (drop_existing : bool) (s : state),
  exists evs : list event,
    trace (proc (snd (run_setup drv uuid4 impl drop_existing s)))
    = (trace (proc s) ++ evs)%list
    /\ enums_first [] evs = true.
Proof.
  intros flag s. rewrite run_setup_bracket, finally_disconnect. simpl snd.
  unfold try_except. rewrite setup_body_split. unfold bind.
  destruct (connect_spec drv (announced s)) as (e1 & _ & _ & Ht1 & Hn1 & _ & _).
  assert (Hh1 : forallb harmless e1 = true)
    by exact (harmless_weaken _ _ harmless_not_execute Hn1).
  change (trace (proc (announced s))) with (trace (proc s)) in Ht1.
  destruct (connect drv (announced s)) as [[e|[]] sc]; simpl in Ht1.
  - match goal with
    | |- context [disconnect ?x] => set (s2 := x)
    end.
    assert (Hs2 : trace (proc s2) = trace (proc sc))
      by (subst s2; destruct (is_Exception e); reflexivity).
    destruct (disconnect_spec s2) as (closes & _ & _ & _ & Hct & Hcl & _).
    exists (e1 ++ closes)%list. split.
    + rewrite Hct, Hs2, Ht1, app_assoc. reflexivity.
    + apply enums_first_harmless. rewrite forallb_app, Hh1.
      exact (harmless_weaken _ _ harmless_close Hcl).
  - destruct (after_connect_enums_first flag sc (created_by [] e1))
      as (e2 & Ht2 & He2).
    destruct (after_connect drv uuid4 impl flag sc) as [r s1]. simpl in Ht2.
    match goal with
    | |- context [disconnect ?x] => set (s2 := x)
    end.
    assert (Hs2 : trace (proc s2) = trace (proc s1))
      by (subst s2; destruct r as [e|[]]; [destruct (is_Exception e)|];
          reflexivity).
    destruct (disconnect_spec s2) as (closes & _ & _ & _ & Hct & Hcl & _).
    exists (e1 ++ e2 ++ closes)%list. split.
    + rewrite Hct, Hs2, Ht2, Ht1, <- !app_assoc. reflexivity.
    + rewrite !enums_first_app.
      rewrite (enums_first_harmless e1 [] Hh1), He2. simpl.
      apply enums_first_harmless.
      exact (harmless_weaken _ _ harmless_close Hcl).
Qed.

End Ordering.

Lemma enum_names_free_spec :
  forall (d : Pg.database) (n : string),
    enum_names_free d = true -> In n (map fst enums) ->
    has_type n d = false /\ has_table n d = false.
Proof.
  unfold enum_names_free. intros d n H Hn. rewrite forallb_forall in H.
  specialize (H n Hn). apply andb_true_iff in H. destruct H as [H1 H2].
  apply negb_true_iff in H1, H2. auto.
Qed.

Lemma create_type_fresh :
  forall (n : string) (labels : list string) (d : Pg.database),
    ident_ok n = true -> nodupb labels = true ->
    has_type n d = false -> has_table n d = false ->
    Pg.execute (CreateTypeEnum n labels) d
    = inr (Db (db_types d ++ [(n, labels)]) (db_tables d) (db_indexes d)
              (db_serial d), []).
Proof.
  intros n labels d Hi Hl Ht Hb. unfold has_type, has_table in *.
  simpl. unfold create_type. rewrite Hi, Hl, Ht, Hb. reflexivity.
Qed.

Lemma has_type_added :
  forall (n m : string) (labels : list string) (d : Pg.database),
    has_type n (Db (db_types d ++ [(m, labels)]) (db_tables d) (db_indexes d)
                   (db_serial d))
    = orb (has_type n d) (String.eqb n m).
Proof.
  intros. unfold has_type. simpl. rewrite map_app, mem_app. simpl.
  rewrite orb_false_r. reflexivity.
Qed.

Lemma apply_all_enum_stmts :
  forall d : Pg.database,
    enum_names_free d = true ->
    apply_all enum_stmts d
    = inr (Db (db_types d ++ enums) (db_tables d) (db_indexes d) (db_serial d))
    /\ reach enum_stmts d
       = Db (db_types d ++ enums) (db_tables d) (db_indexes d) (db_serial d).
Proof.
  intros d H.
  destruct (@enum_names_free_spec d "role" H) as [T1 B1]; [simpl; auto|].
  destruct (@enum_names_free_spec d "status" H) as [T2 B2]; [simpl; auto|].
  destruct (@enum_names_free_spec d "comfort_level" H) as [T3 B3]; [simpl; auto 6|].
  destruct (@enum_names_free_spec d "category" H) as [T4 B4]; [simpl; auto 6|].
  unfold enum_stmts, enums, apply_all, reach. cbn [map fst snd].
  rewrite create_type_fresh by (reflexivity || assumption).
  rewrite create_type_fresh
    by (try reflexivity; try assumption;
        rewrite has_type_added, T2; reflexivity).
  rewrite create_type_fresh
    by (try reflexivity; try assumption;
        rewrite !has_type_added, T3; reflexivity).
  rewrite create_type_fresh
    by (try reflexivity; try assumption;
        rewrite !has_type_added, T4; reflexivity).
  cbn [db_types db_tables db_indexes db_serial].
  rewrite <- !app_assoc. split; reflexivity.
Qed.

(** C7.  [create_enums] sends exactly four CREATE TYPE statements, with
    the label sets of role, status, comfort_level and category, and the
    columns of the tables use no other user-defined type.  On PostgreSQL,
    over a connected session in which none of the four names is taken,
    it succeeds and adds exactly these four types, leaving the tables
    alone.  In every run of [run_setup], whatever the driver does, each
    CREATE TABLE is sent after the successful creation of every
    enumerated type its columns use. *)
Theorem enums_created_before_tables :
  enum_stmts
  = [ CreateTypeEnum "role" ["mentor"; "mentee"; "admin"];
      CreateTypeEnum "status" ["pending"; "confirmed"; "declined"; "cancelled"];
      CreateTypeEnum "comfort_level" ["low"; "medium"; "high"];
      CreateTypeEnum "category" ["2way"; "3way"; "4way"; "canopy"; "safety"] ]
  /\ (forall t n, In (t, n) enum_uses -> In n (map fst enums))
  /\ (forall (up : bool) (s : state),
         connected s = true ->
         enum_names_free (db (proc s)) = true ->
         exists s',
           create_enums (postgres up) s = (inr tt, s')
           /\ db_types (db (proc s')) = (db_types (db (proc s)) ++ enums)%list
           /\ db_tables (db (proc s')) = db_tables (db (proc s))
           /\ trace (proc s') = (trace (proc s) ++ executed enum_stmts)%list)
  /\ (forall (drv : driver) (uuid4 : nat -> string)
             (impl : string -> callable) (drop_existing : bool) (s : state),
         exists evs,
           trace (proc (snd (run_setup drv uuid4 impl drop_existing s)))
           = (trace (proc s) ++ evs)%list
           /\ enums_first [] evs = true).
Proof.
  split; [reflexivity|]. split; [|split].
  - intros t n Hin.
    assert (H : forallb (fun p => mem (snd p) (map fst enums)) enum_uses = true)
      by (vm_compute; reflexivity).
    rewrite forallb_forall in H. apply mem_In. exact (H _ Hin).
  - intros up s Hc Hfree. rewrite create_enums_block.
    destruct (run_block up "Creating enums..." "✓ Enums created"
                        enum_stmts s Hc)
      as (s' & evs & Hrun & Hadv & Hevs & _).
    destruct (apply_all_enum_stmts (db (proc s)) Hfree) as [Ha Hr].
    rewrite Ha in Hrun, Hevs. rewrite Hr in Hadv.
    destruct Hadv as (_ & _ & _ & _ & Ht & Hd).
    exists s'. rewrite Hd, Ht, (Hevs _ eq_refl). auto.
  - intros drv uuid4 impl flag s. apply run_setup_enums_first.
Qed.

Lemma enums_created_before_tables_witness :
  connected (session empty_db) = true
  /\ enum_names_free (db (proc (session empty_db))) = true
  /\ exists s',
      create_enums (postgres true) (session empty_db) = (inr tt, s')
      /\ db_types (db (proc s')) = enums.
Proof.
  split; [reflexivity|]. split; [reflexivity|].
  destruct enums_created_before_tables as (_ & _ & H & _).
  destruct (H true (session empty_db) eq_refl eq_refl) as (s' & H1 & H2 & _).
  exists s'. split; assumption.
Defined.

(** ** Reset, then create: [create_tables] stops at [progression_steps] *)

Lemma reach_types_only :
  forall (qs : list stmt) (d : Pg.database),
    (forall q, In q qs -> exists n labels, q = CreateTypeEnum n labels) ->
    db_tables (reach qs d) = db_tables d.
Proof.
  intros qs. induction qs as [|q qs IH]; intros d H; simpl; auto.
  destruct (H q (or_introl eq_refl)) as (n & labels & ->). simpl.
  destruct (create_type n labels d) as [e|d'] eqn:E; auto.
  apply create_type_inv in E. destruct E as (-> & _).
  rewrite IH by (intros q' Hq'; apply H; right; exact Hq'). reflexivity.
Qed.

Lemma reach_other_tables :
  forall (qs : list stmt) (d : Pg.database) (x : string),
    (forall q, In q qs -> exists t cols, q = CreateTable t cols /\ t <> x) ->
    has_table x d = false ->
    has_table x (reach qs d) = false.
Proof.
  intros qs. induction qs as [|q qs IH]; intros d x H Hx; simpl; auto.
  destruct (H q (or_introl eq_refl)) as (t & cols & -> & Hne). simpl.
  destruct (create_table t cols d) as [e|d'] eqn:E; auto.
  apply create_table_inv in E. destruct E as (-> & _).
  apply IH.
  - intros q' Hq'. apply H. right. exact Hq'.
  - unfold has_table in *. simpl. rewrite map_app, mem_app, Hx. simpl.
    rewrite orb_false_r. apply String.eqb_neq. auto.
Qed.

Lemma apply_all_stops :
  forall (q : stmt) (pre post : list stmt) (d : Pg.database),
    (forall d', exists e, Pg.execute q d' = inl e) ->
    (exists e, apply_all (pre ++ q :: post) d = inl e)
    /\ reach (pre ++ q :: post) d = reach pre d.
Proof.
  intros q pre post d Hq. revert d.
  induction pre as [|p pre IH]; intros d; simpl.
  - destruct (Hq d) as (e & ->). eauto.
  - destruct (Pg.execute p d) as [e|[d' rows]]; eauto.
Qed.

Lemma tables_ddl_split :
  tables_ddl = (first_tables ++ progression_steps_ddl :: later_tables)%list.
Proof. reflexivity. Qed.

Lemma create_tables_stops :
  forall (d : Pg.database) (x : string),
    In x never_created -> has_table x d = false ->
    (exists e, apply_all tables_ddl d = inl e)
    /\ has_table x (reach tables_ddl d) = false.
Proof.
  intros d x Hx Hd. rewrite tables_ddl_split.
  destruct (apply_all_stops progression_steps_ddl first_tables later_tables d)
    as [He Hr].
  { intros d'. rewrite progression_steps_ddl_rejected. eauto. }
  split; [exact He|]. rewrite Hr. apply reach_other_tables; [|exact Hd].
  intros q Hq. unfold first_tables in Hq. simpl in Hq.
  unfold never_created in Hx. simpl in Hx.
  repeat (destruct Hq as [<- | Hq];
          [do 2 eexists; split; [reflexivity|];
           repeat (destruct Hx as [<- | Hx]; [discriminate|]); contradiction|]).
  contradiction.
Qed.

(** C1 (code defect).  On PostgreSQL, over a connected session and
    whatever the database holds, a reset followed by [create_enums] and
    [create_tables] ends in an exception, and [progression_steps],
    [step_completions], [badges], [awards], [jump_logs] and
    [audit_events] do not exist afterwards: the bare column name
    [references] of [progression_steps] is a reserved word, its CREATE
    TABLE is a syntax error, and the statements after it are never
    sent. *)
Theorem reset_then_create_leaves_tables_missing :
  forall (up : bool) (s : state),
    connected s = true ->
    let (r, s') := (drop_existing_schema (postgres up) ;;
                    create_enums (postgres up) ;;
                    create_tables (postgres up)) s in
    (exists e, r = inl e)
    /\ forall x, In x never_created -> has_table x (db (proc s')) = false.
Proof.
  intros up s Hc. unfold bind.
  destruct (drop_existing_schema_run up s Hc) as (s1 & Hrun1 & Hadv1).
  rewrite Hrun1.
  destruct Hadv1 as (Hc1 & _ & _ & _ & _ & Hd1).
  assert (Hmiss1 : forall x, In x never_created ->
                             has_table x (db (proc s1)) = false).
  { intros x Hx. rewrite Hd1.
    apply (proj1 (no_target_after_drop (db (proc s)))).
    unfold never_created in Hx. simpl in Hx. unfold drop_tables. simpl.
    intuition. }
  rewrite create_enums_block.
  destruct (run_block up "Creating enums..." "✓ Enums created"
                      enum_stmts s1 Hc1)
    as (s2 & ev2 & Hrun2 & Hadv2 & _ & _).
  rewrite Hrun2.
  destruct Hadv2 as (Hc2 & _ & _ & _ & _ & Hd2).
  assert (Hmiss2 : forall x, In x never_created ->
                             has_table x (db (proc s2)) = false).
  { intros x Hx. rewrite Hd2. unfold has_table.
    rewrite reach_types_only; [exact (Hmiss1 x Hx)|].
    intros q Hq. unfold enum_stmts in Hq. simpl in Hq.
    repeat (destruct Hq as [<- | Hq]; [eauto|]). contradiction. }
  destruct (apply_all enum_stmts (db (proc s1))) as [e|d2]; simpl.
  - split; [eauto | exact Hmiss2].
  - rewrite create_tables_block.
    destruct (run_block up "Creating tables..." "✓ Tables created"
                        tables_ddl s2 Hc2)
      as (s3 & ev3 & Hrun3 & Hadv3 & _ & _).
    rewrite Hrun3.
    destruct Hadv3 as (_ & _ & _ & _ & _ & Hd3).
    destruct (@create_tables_stops (db (proc s2)) "progression_steps")
      as [(e & He) _]; [unfold never_created; simpl; auto | apply Hmiss2;
        unfold never_created; simpl; auto |].
    rewrite He. simpl. split; [eauto|].
    intros x Hx. rewrite Hd3.
    apply create_tables_stops; [exact Hx | exact (Hmiss2 x Hx)].
Qed.

Lemma reset_then_create_leaves_tables_missing_witness :
  connected (session empty_db) = true
  /\ fst ((drop_existing_schema (postgres true) ;;
           create_enums (postgres true) ;;
           create_tables (postgres true)) (session empty_db))
     = inl (Psycopg2Error "syntax error at or near references")
  /\ has_table "progression_steps"
       (db (proc (snd ((drop_existing_schema (postgres true) ;;
                        create_enums (postgres true) ;;
                        create_tables (postgres true)) (session empty_db)))))
     = false.
Proof.
  split; [reflexivity|]. split; [vm_compute; reflexivity|].
  pose proof (reset_then_create_leaves_tables_missing
                true (session empty_db) eq_refl) as H.
  destruct ((drop_existing_schema (postgres true) ;;
             create_enums (postgres true) ;;
             create_tables (postgres true)) (session empty_db)) as [r s'].
  destruct H as [_ H]. apply H. unfold never_created. simpl. auto.
Defined.

(** ** Seeding: [seed_users], [seed_progression_steps], [seed_badges] *)

(** C4 (code defect).  [seed_users] inserts no user: for the first of
    the three accounts it calls [hash_password], which raises
    [AttributeError], before any INSERT is sent.  Whatever the driver
    and the state, the database and the trace are as before, so on a
    fresh schema the table [users] still has no row and the steps after
    it, the curriculum and the badges, are not reached by [run_setup]. *)
Theorem seed_users_inserts_nothing :
  forall (drv : driver) (uuid4 : nat -> string) (impl : string -> callable)
         (s : state),
    let (r, s') := seed_users drv uuid4 impl s in
    r = inl (AttributeError "module 'hashlib' has no attribute 'pbkdf2_hex'")
    /\ db (proc s') = db (proc s)
    /\ trace (proc s') = trace (proc s)
    /\ rows_of "users" (db (proc s')) = rows_of "users" (db (proc s)).
Proof. intros. simpl. repeat split. Qed.

(** On the schema the script describes, the two seeding steps that
    [run_setup] never reaches would insert what the data model says: 24
    curriculum steps, 2, 6, 10, 3 and 3 per category, and 10 badges. *)
Example seed_progression_steps_on_schema :
  let (r, s') := seed_progression_steps (postgres true) (session schema_db) in
  r = inr tt
  /\ length (rows_of "progression_steps" (db (proc s'))) = 24
  /\ map (fun c => count_key "category" c
                             (rows_of "progression_steps" (db (proc s'))))
         ["2way"; "3way"; "4way"; "canopy"; "safety"]
     = [2; 6; 10; 3; 3].
Proof. vm_compute. repeat split. Qed.

Example seed_badges_on_schema :
  let (r, s') := seed_badges (postgres true) (session schema_db) in
  r = inr tt /\ length (rows_of "badges" (db (proc s'))) = 10.
Proof. vm_compute. repeat split. Qed.

Example seed_users_on_schema :
  let (r, s') := seed_users (postgres true) demo_uuid4 demo_hashlib
                            (session schema_db) in
  r = inl (AttributeError "module 'hashlib' has no attribute 'pbkdf2_hex'")
  /\ length (rows_of "users" (db (proc s'))) = 0.
Proof. vm_compute. repeat split. Qed.

(** ** Verification: [verify_setup] *)


Section KeepsDb.

Variable up : bool.









End KeepsDb.










(* ===================================================================== *)
(** * Further properties of the methods *)
(* ===================================================================== *)

(** ** What [run_setup] sends and how it ends, whatever the driver *)

Lemma only_sends :
  forall (P : stmt -> bool) (evs : list event),
    forallb (sends P) evs = true -> forallb (only P) evs = true.
Proof.
  intros P evs H. rewrite forallb_forall in *. intros ev Hev.
  specialize (H ev Hev). destruct ev; simpl in *; auto.
Qed.

Lemma only_not_execute :
  forall (P : stmt -> bool) (evs : list event),
    forallb (fun ev => negb (is_execute ev)) evs = true ->
    forallb (only P) evs = true.
Proof.
  intros P evs H. rewrite forallb_forall in *. intros ev Hev.
  specialize (H ev Hev). destruct ev; simpl in *; auto; discriminate.
Qed.

Lemma only_close :
  forall (P : stmt -> bool) (evs : list event),
    forallb is_close evs = true -> forallb (only P) evs = true.
Proof.
  intros P evs H. rewrite forallb_forall in *. intros ev Hev.
  specialize (H ev Hev). destruct ev; simpl in *; auto; discriminate.
Qed.

Lemma raises_bind_l :
  forall (A B : Type) (m : M state A) (k : A -> M state B),
    raises m -> raises (bind m k).
Proof.
  intros A B m k Hm s. destruct (Hm s) as (e & He). unfold bind.
  destruct (m s) as [[e'|a] s1]; simpl in *; [eauto | discriminate].
Qed.

Lemma raises_bind_r :
  forall (A B : Type) (m : M state A) (k : A -> M state B),
    (forall a, raises (k a)) -> raises (bind m k).
Proof.
  intros A B m k Hk s. unfold bind.
  destruct (m s) as [[e'|a] s1]; simpl; [eauto | apply Hk].
Qed.

Lemma quiet_bind_raises :
  forall (A B : Type) (P : stmt -> bool) (m : M state A) (k : A -> M state B),
    raises m -> quiet P m -> quiet P (bind m k).
Proof.
  intros A B P m k Hr Hm s. destruct (Hr s) as (e & He).
  destruct (Hm s) as (evs & H1 & H2 & H3 & H4 & H5). unfold bind.
  destruct (m s) as [[e'|a] s1]; simpl in *; [|discriminate].
  exists evs. auto.
Qed.

Section Sends.

Variable drv : driver.
Variable uuid4 : nat -> string.
Variable impl : string -> callable.

Lemma seed_users_raises : raises (seed_users drv uuid4 impl).
Proof. intros s. eexists. reflexivity. Qed.

Lemma quiet_seed_users_any :
  forall P : stmt -> bool, quiet P (seed_users drv uuid4 impl).
Proof.
  intros P s. exists []. simpl. rewrite app_nil_r. repeat split; auto.
Qed.

Lemma after_enums_raises : raises (after_enums drv uuid4 impl).
Proof.
  unfold after_enums. apply raises_bind_r. intros _.
  apply raises_bind_r. intros _. apply raises_bind_l. apply seed_users_raises.
Qed.

Lemma setup_body_raises :
  forall drop_existing : bool, raises (setup_body drv uuid4 impl drop_existing).
Proof.
  intros flag. rewrite setup_body_split. apply raises_bind_r. intros _.
  unfold after_connect. apply raises_bind_r. intros _.
  apply raises_bind_r. intros _. apply after_enums_raises.
Qed.

Lemma quiet_after_connect_ddl :
  forall drop_existing : bool,
    quiet ddl_only (after_connect drv uuid4 impl drop_existing).
Proof.
  intros flag. unfold after_connect.
  apply quiet_bind; [|intros _].
  { destruct flag; [unfold drop_existing_schema; quiet_auto | apply quiet_ret]. }
  apply quiet_bind; [unfold create_enums; quiet_auto | intros _].
  unfold after_enums.
  apply quiet_bind; [unfold create_tables; quiet_auto | intros _].
  apply quiet_bind; [unfold create_indexes, indexes; quiet_auto | intros _].
  apply quiet_bind_raises;
    [apply seed_users_raises | apply quiet_seed_users_any].
Qed.

(** The statements of a run all satisfy what the steps after [connect]
    are known to send. *)
Lemma run_setup_sends :
  forall (P : stmt -> bool) (drop_existing : bool),
    quiet P (after_connect drv uuid4 impl drop_existing) ->
    forall s : state,
    exists evs : list event,
      trace (proc (snd (run_setup drv uuid4 impl drop_existing s)))
      = (trace (proc s) ++ evs)%list
      /\ forallb (only P) evs = true.
Proof.
  intros P flag HQ s. rewrite run_setup_bracket, finally_disconnect. simpl snd.
  unfold try_except. rewrite setup_body_split. unfold bind.
  destruct (connect_spec drv (announced s)) as (e1 & _ & _ & Ht1 & Hn1 & _ & _).
  change (trace (proc (announced s))) with (trace (proc s)) in Ht1.
  destruct (connect drv (announced s)) as [[e|[]] sc]; simpl in Ht1.
  - match goal with
    | |- context [disconnect ?x] => set (s2 := x)
    end.
    assert (Hs2 : trace (proc s2) = trace (proc sc))
      by (subst s2; destruct (is_Exception e); reflexivity).
    destruct (disconnect_spec s2) as (closes & _ & _ & _ & Hct & Hcl & _).
    exists (e1 ++ closes)%list. split.
    + rewrite Hct, Hs2, Ht1, app_assoc. reflexivity.
    + rewrite forallb_app, (only_not_execute P e1 Hn1), (only_close P closes Hcl).
      reflexivity.
  - destruct (HQ sc) as (e2 & _ & _ & Ht2 & Hs & _).
    destruct (after_connect drv uuid4 impl flag sc) as [r s1]. simpl in Ht2.
    match goal with
    | |- context [disconnect ?x] => set (s2 := x)
    end.
    assert (Hs2 : trace (proc s2) = trace (proc s1))
      by (subst s2; destruct r as [e|[]]; [destruct (is_Exception e)|];
          reflexivity).
    destruct (disconnect_spec s2) as (closes & _ & _ & _ & Hct & Hcl & _).
    exists (e1 ++ e2 ++ closes)%list. split.
    + rewrite Hct, Hs2, Ht2, Ht1, <- !app_assoc. reflexivity.
    + rewrite !forallb_app, (only_not_execute P e1 Hn1), (only_sends P e2 Hs),
        (only_close P closes Hcl). reflexivity.
Qed.

Lemma run_setup_raises :
  forall drop_existing : bool, raises (run_setup drv uuid4 impl drop_existing).
Proof.
  intros flag s. rewrite run_setup_bracket, finally_disconnect. simpl fst.
  unfold try_except.
  destruct (setup_body_raises flag (announced s)) as (e & He).
  destruct (setup_body drv uuid4 impl flag (announced s)) as [r s1].
  simpl in He. subst r. destruct (is_Exception e); simpl; eauto.
Qed.

(** [run_setup] never completes and never sends an INSERT or a SELECT:
    whatever the driver does, the run ends in an exception, and every
    statement it sends is schema definition (DROP or CREATE).  The
    seeding stops in [seed_users] before its first INSERT, so no seed
    row is written and [verify_setup] is not reached. *)
Theorem run_setup_never_seeds :
  forall (drop_existing : bool) (s : state),
    (exists e, fst (run_setup drv uuid4 impl drop_existing s) = inl e)
    /\ exists evs,
        trace (proc (snd (run_setup drv uuid4 impl drop_existing s)))
        = (trace (proc s) ++ evs)%list
        /\ forallb (only ddl_only) evs = true.
Proof.
  intros flag s. split.
  - apply run_setup_raises.
  - apply run_setup_sends. apply quiet_after_connect_ddl.
Qed.

(** [main] returns normally only when the operator declines the reset:
    if the exit status is that of a normal return, the reset flag was
    given and the answer read from the console was not [yes]. *)
Theorem main_returns_only_when_declined :
  forall (drop_existing : bool) (e : environ) (p : process),
    fst (main drv uuid4 impl drop_existing e p) = inr tt ->
    drop_existing = true
    /\ exists answer rest,
        stdin p = answer :: rest /\ lower answer <> "yes".
Proof.
  intros flag e p.
  assert (Hstart : forall f p0, fst (start drv uuid4 impl f e p0) <> inr tt).
  { intros f p0. unfold start, bind.
    destruct (DatabaseSetup_init e p0) as [[ex|o] p1]; simpl; [discriminate|].
    destruct (run_setup_raises f (St o p1)) as (ex & Hex).
    destruct (run_setup drv uuid4 impl f (St o p1)) as [r s1]. simpl in *.
    subst r. discriminate. }
  unfold main. destruct flag; [|intros H; destruct (Hstart false p H)].
  unfold bind, input. simpl.
  destruct (stdin p) as [|answer rest]; simpl; [discriminate|].
  destruct (String.eqb (lower answer) "yes") eqn:E; simpl.
  - intros H. destruct (Hstart true _ H).
  - intros _. split; [reflexivity|]. exists answer, rest. split; [reflexivity|].
    intros Heq. rewrite Heq in E. discriminate.
Qed.

End Sends.

Lemma main_returns_only_when_declined_witness :
  fst (main (postgres true) demo_uuid4 demo_hashlib true demo_env
            (boot curriculum_db ["no"])) = inr tt
  /\ exists answer rest,
      stdin (boot curriculum_db ["no"]) = answer :: rest
      /\ lower answer <> "yes".
Proof.
  split; [reflexivity|].
  apply (main_returns_only_when_declined
           (postgres true) demo_uuid4 demo_hashlib true demo_env
           (boot curriculum_db ["no"])).
  reflexivity.
Defined.

(** ** Without the reset flag nothing is dropped *)

Section NoDrop.

Variable drv : driver.
Variable uuid4 : nat -> string.
Variable impl : string -> callable.

Lemma quiet_after_connect_no_drop :
  quiet no_drop (after_connect drv uuid4 impl false).
Proof.
  unfold after_connect.
  apply quiet_bind; [apply quiet_ret | intros _].
  apply quiet_bind; [unfold create_enums; quiet_auto | intros _].
  unfold after_enums.
  apply quiet_bind; [unfold create_tables; quiet_auto | intros _].
  apply quiet_bind; [unfold create_indexes, indexes; quiet_auto | intros _].
  apply quiet_bind_raises;
    [apply seed_users_raises | apply quiet_seed_users_any].
Qed.

Lemma init_trace :
  forall (e : environ) (p : process),
    trace (snd (DatabaseSetup_init e p)) = trace p.
Proof.
  intros e p. unfold DatabaseSetup_init, bind, lift.
  destruct (port_of e) as [ex|z]; [reflexivity|].
  destruct (missing_vars e); reflexivity.
Qed.

(** Without the reset flag [main] drops nothing: whatever the
    environment, the console input and the driver, no DROP TABLE and no
    DROP TYPE is among the statements it sends. *)
Theorem main_without_flag_drops_nothing :
  forall (e : environ) (p : process),
  exists evs : list event,
    trace (snd (main drv uuid4 impl false e p)) = (trace p ++ evs)%list
    /\ forallb (only no_drop) evs = true.
Proof.
  intros e p. unfold main, start, bind.
  pose proof (init_trace e p) as Hi.
  destruct (DatabaseSetup_init e p) as [[ex|o] p1]; simpl in *.
  - exists []. rewrite app_nil_r. auto.
  - destruct (run_setup_sends quiet_after_connect_no_drop (St o p1))
      as (evs & Ht & Hn).
    destruct (run_setup drv uuid4 impl false (St o p1)) as [r s1].
    simpl in *. exists evs. rewrite Ht, Hi. auto.
Qed.

End NoDrop.

(** ** Indexes only on tables created earlier in the run *)

Lemma tables_made_mono :
  forall (evs : list event) (m : list string) (t : string),
    mem t m = true -> mem t (tables_made m evs) = true.
Proof.
  intros evs. induction evs as [|ev evs IH]; intros m t H; simpl; auto.
  destruct ev as [| |q ok| |]; auto.
  destruct q; auto. destruct ok; auto.
  apply IH. simpl. rewrite H. apply orb_true_r.
Qed.

Lemma tables_first_app :
  forall (e1 e2 : list event) (m : list string),
    tables_first m (e1 ++ e2)
    = andb (tables_first m e1) (tables_first (tables_made m e1) e2).
Proof.
  intros e1. induction e1 as [|ev e1 IH]; intros e2 m; simpl; auto.
  destruct ev as [| |q ok| |]; auto.
  destruct q; auto.
  - destruct ok; auto.
  - rewrite IH. rewrite andb_assoc. reflexivity.
Qed.

Lemma tables_first_indexless :
  forall (evs : list event) (m : list string),
    forallb indexless evs = true -> tables_first m evs = true.
Proof.
  intros evs. induction evs as [|ev evs IH]; intros m H; simpl in *; auto.
  apply andb_true_iff in H. destruct H as [H1 H2].
  destruct ev as [| |q ok| |]; auto.
  destruct q; auto; [destruct ok; auto | discriminate].
Qed.

Lemma tables_first_known :
  forall (evs : list event) (m : list string),
    (forall t, In t data_model -> mem t m = true) ->
    forallb (sends index_on_model) evs = true ->
    tables_first m evs = true.
Proof.
  intros evs. induction evs as [|ev evs IH]; intros m Hm H; simpl in *; auto.
  apply andb_true_iff in H. destruct H as [H1 H2].
  destruct ev as [| |q ok| |]; try discriminate.
  destruct q; auto; try discriminate.
  rewrite (IH m Hm H2), andb_true_r.
  apply Hm. exact (proj1 (mem_In t data_model) H1).
Qed.

Lemma indexless_weaken :
  forall (Q : event -> bool) (evs : list event),
    (forall ev, Q ev = true -> indexless ev = true) ->
    forallb Q evs = true -> forallb indexless evs = true.
Proof.
  intros Q evs HQ H. rewrite forallb_forall in *. auto.
Qed.

Lemma indexless_no_create_index :
  forall ev, sends no_create_index ev = true -> indexless ev = true.
Proof. intros [| |[] ok| |]; simpl; auto. Qed.

Lemma indexless_not_execute :
  forall ev, negb (is_execute ev) = true -> indexless ev = true.
Proof. intros [| |[] ok| |]; simpl; auto. Qed.

Lemma indexless_close : forall ev, is_close ev = true -> indexless ev = true.
Proof. intros [| |[] ok| |]; simpl; auto. Qed.

Section TablesFirst.

Variable drv : driver.
Variable uuid4 : nat -> string.
Variable impl : string -> callable.

Lemma after_enums_split :
  after_enums drv uuid4 impl
  = (create_tables drv ;; after_tables drv uuid4 impl).
Proof. reflexivity. Qed.

Lemma create_tables_trace :
  forall s : state,
    fst (create_tables drv s) = inr tt ->
    trace (proc (snd (create_tables drv s)))
    = (trace (proc s) ++ executed tables_ddl)%list.
Proof.
  intros s. rewrite create_tables_block. unfold bind.
  rewrite (print_run "Creating tables..." s). cbv beta iota.
  set (s0 := St (self s) (set_stdout (stdout (proc s) ++ ["Creating tables..."])
                                     (proc s))).
  pose proof (run_stmts_trace drv tables_ddl s0) as H.
  destruct (for_each tables_ddl (cursor_execute drv) s0) as [[e|[]] s1].
  - intros D. discriminate D.
  - intros _. exact (H eq_refl).
Qed.

Lemma quiet_after_tables : quiet index_on_model (after_tables drv uuid4 impl).
Proof.
  unfold after_tables.
  apply quiet_bind; [unfold create_indexes, indexes; quiet_auto | intros _].
  apply quiet_bind_raises;
    [apply seed_users_raises | apply quiet_seed_users_any].
Qed.

Lemma after_connect_tables_first :
  forall (drop_existing : bool) (s : state) (m : list string),
  exists evs : list event,
    trace (proc (snd (after_connect drv uuid4 impl drop_existing s)))
    = (trace (proc s) ++ evs)%list
    /\ tables_first m evs = true.
Proof.
  intros flag s m. unfold after_connect. rewrite after_enums_split.
  assert (H1 : quiet no_create_index
                 ((if flag then drop_existing_schema drv else ret tt) ;;
                  create_enums drv)).
  { apply quiet_bind; [|intros _; unfold create_enums; quiet_auto].
    destruct flag; [unfold drop_existing_schema; quiet_auto | apply quiet_ret]. }
  assert (Hbind :
            forall st,
              ((if flag then drop_existing_schema drv else ret tt) ;;
               create_enums drv ;;
               create_tables drv ;; after_tables drv uuid4 impl) st
              = (((if flag then drop_existing_schema drv else ret tt) ;;
                  create_enums drv) ;;
                 create_tables drv ;; after_tables drv uuid4 impl) st).
  { intros st. unfold bind.
    destruct ((if flag then drop_existing_schema drv else ret tt) st)
      as [[e|[]] st1]; [reflexivity|].
    destruct (create_enums drv st1) as [[e|[]] st2]; reflexivity. }
  rewrite Hbind. unfold bind at 1.
  destruct (H1 s) as (e1 & _ & _ & Ht1 & Hs1 & _).
  pose proof (indexless_weaken _ _ indexless_no_create_index Hs1) as Hi1.
  destruct (((if flag then drop_existing_schema drv else ret tt) ;;
             create_enums drv) s) as [[e|[]] s1]; simpl in Ht1.
  { exists e1. split; [exact Ht1 | apply tables_first_indexless; exact Hi1]. }
  unfold bind.
  assert (H2 : quiet no_create_index (create_tables drv))
    by (unfold create_tables; quiet_auto).
  destruct (H2 s1) as (e2 & _ & _ & Ht2 & Hs2 & _).
  pose proof (indexless_weaken _ _ indexless_no_create_index Hs2) as Hi2.
  pose proof (create_tables_trace s1) as Hexact.
  destruct (create_tables drv s1) as [[e|[]] s2]; simpl in Ht2, Hexact.
  { exists (e1 ++ e2)%list. split.
    - simpl. rewrite Ht2, Ht1, app_assoc. reflexivity.
    - apply tables_first_indexless. rewrite forallb_app, Hi1, Hi2. reflexivity. }
  specialize (Hexact eq_refl).
  destruct (quiet_after_tables s2) as (e3 & _ & _ & Ht3 & Hs3 & _).
  exists (e1 ++ executed tables_ddl ++ e3)%list. split.
  - rewrite Ht3, Hexact, Ht1, <- !app_assoc. reflexivity.
  - rewrite !tables_first_app, (tables_first_indexless e1 m Hi1).
    assert (Hmade : forall t, In t data_model ->
                              mem t (tables_made (tables_made m e1)
                                                 (executed tables_ddl)) = true).
    { intros t Ht. unfold data_model, tables_ddl in Ht. simpl in Ht.
      repeat (destruct Ht as [<- | Ht];
              [simpl; rewrite ?String.eqb_refl, ?orb_true_r; reflexivity|]).
      contradiction. }
    rewrite (tables_first_known e3 _ Hmade Hs3), andb_true_r.
    reflexivity.
Qed.

(** In every run of [run_setup], whatever the driver does, each CREATE
    INDEX is sent after the successful CREATE TABLE of the table it is
    on: [create_indexes] is reached only when [create_tables] completed,
    and it names tables of [create_tables] only. *)
Theorem indexes_created_after_tables :
  forall (drop_existing : bool) (s : state),
  exists evs : list event,
    trace (proc (snd (run_setup drv uuid4 impl drop_existing s)))
    = (trace (proc s) ++ evs)%list
    /\ tables_first [] evs = true.
Proof.
  intros flag s. rewrite run_setup_bracket, finally_disconnect. simpl snd.
  unfold try_except. rewrite setup_body_split. unfold bind.
  destruct (connect_spec drv (announced s)) as (e1 & _ & _ & Ht1 & Hn1 & _ & _).
  assert (Hh1 : forallb indexless e1 = true)
    by exact (indexless_weaken _ _ indexless_not_execute Hn1).
  change (trace (proc (announced s))) with (trace (proc s)) in Ht1.
  destruct (connect drv (announced s)) as [[e|[]] sc]; simpl in Ht1.
  - match goal with
    | |- context [disconnect ?x] => set (s2 := x)
    end.
    assert (Hs2 : trace (proc s2) = trace (proc sc))
      by (subst s2; destruct (is_Exception e); reflexivity).
    destruct (disconnect_spec s2) as (closes & _ & _ & _ & Hct & Hcl & _).
    exists (e1 ++ closes)%list. split.
    + rewrite Hct, Hs2, Ht1, app_assoc. reflexivity.
    + apply tables_first_indexless. rewrite forallb_app, Hh1.
      exact (indexless_weaken _ _ indexless_close Hcl).
  - destruct (after_connect_tables_first flag sc (tables_made [] e1))
      as (e2 & Ht2 & He2).
    destruct (after_connect drv uuid4 impl flag sc) as [r s1]. simpl in Ht2.
    match goal with
    | |- context [disconnect ?x] => set (s2 := x)
    end.
    assert (Hs2 : trace (proc s2) = trace (proc s1))
      by (subst s2; destruct r as [e|[]]; [destruct (is_Exception e)|];
          reflexivity).
    destruct (disconnect_spec s2) as (closes & _ & _ & _ & Hct & Hcl & _).
    exists (e1 ++ e2 ++ closes)%list. split.
    + rewrite Hct, Hs2, Ht2, Ht1, <- !app_assoc. reflexivity.
    + rewrite !tables_first_app.
      rewrite (tables_first_indexless e1 [] Hh1), He2. simpl.
      apply tables_first_indexless.
      exact (indexless_weaken _ _ indexless_close Hcl).
Qed.

End TablesFirst.

(** ** [connect] and [disconnect] on their own *)

Lemma memn_In : forall (n : nat) (l : list nat), memn n l = true <-> In n l.
Proof.
  intros n l. unfold memn. rewrite existsb_exists. split.
  - intros (m & Hm & E). apply Nat.eqb_eq in E. subst m. exact Hm.
  - intros H. exists n. split; [exact H | apply Nat.eqb_refl].
Qed.

Lemma removen_absent :
  forall (n : nat) (l : list nat), ~ In n l -> removen n l = l.
Proof.
  intros n l. unfold removen. induction l as [|m l IH]; simpl; auto.
  intros H. destruct (Nat.eqb m n) eqn:E; simpl.
  - apply Nat.eqb_eq in E. subst m. exfalso. apply H. left. reflexivity.
  - rewrite IH; [reflexivity|]. intros Hn. apply H. right. exact Hn.
Qed.

Lemma not_in_removen :
  forall (n m : nat) (l : list nat),
    ~ In n (removen n l) /\ (~ In n l -> ~ In n (removen m l)).
Proof.
  intros n m l. split.
  - intros H. apply in_removen in H. destruct H as [_ H]. apply H. reflexivity.
  - intros H Hn. apply in_removen in Hn. destruct Hn as [Hn _]. auto.
Qed.

(** [connect] either leaves the object connected through a
    [RealDictCursor] on a new connection, or ends the run: a
    [psycopg2.Error] of the driver, at the connection or at the cursor,
    becomes [SystemExit 1] after the line that reports it; any other
    exception passes through.  The database is not touched and, when
    [connect] fails, the object's cursor is the one it had. *)
Theorem connect_outcomes :
  forall (drv : driver) (s : state),
    let ps := connection_params (self s) in
    let failed (e : exn) (r : exn + unit) (s' : state) :=
      cursor (self s') = cursor (self s)
      /\ if is_psycopg2_Error e
         then r = inl (SystemExit 1)
              /\ stdout (proc s')
                 = (stdout (proc s)
                      ++ [ ("Connecting to PostgreSQL at " ++ host ps ++ ":"
                              ++ str_of_Z (port ps))%string;
                           ("Error connecting to database: "
                              ++ str_of_exn e)%string ])%list
         else r = inl e in
    let (r, s') := connect drv s in
    db (proc s') = db (proc s)
    /\ match drv_connect drv ps, drv_cursor drv with
       | Some e, _ => failed e r s' /\ conn (self s') = conn (self s)
       | None, Some e => failed e r s'
       | None, None =>
           r = inr tt
           /\ connected s' = true
           /\ exists c, cursor (self s') = Some c
                        /\ cur_factory c = RealDictCursor
                        /\ cur_rows c = None
                        /\ conn (self s') = Some (cur_conn c)
       end.
Proof.
  intros drv s. unfold connect, try_except, bind, print, in_proc, print_p,
    psycopg2_connect, conn_cursor, sys_exit, raise, connected, cursor_open.
  simpl.
  destruct (drv_connect drv (connection_params (self s))) as [e|].
  - destruct (is_psycopg2_Error e) eqn:E; simpl;
      repeat split; auto. rewrite <- app_assoc. reflexivity.
  - simpl. rewrite Nat.eqb_refl. simpl.
    destruct (drv_cursor drv) as [e|].
    + destruct (is_psycopg2_Error e) eqn:E; simpl;
        repeat split; auto. rewrite <- app_assoc. reflexivity.
    + simpl. rewrite !Nat.eqb_refl. simpl. rewrite orb_true_r.
      repeat split. eexists. repeat split.
Qed.

(** On a connected object [disconnect] closes the cursor first and the
    connection second, and raises nothing: both handles are closed
    afterwards, the object is no longer connected, the database is as it
    was, and a second call closes nothing that was still open. *)
Theorem disconnect_closes_cursor_then_connection :
  forall (s : state) (c : pgcursor) (h : nat),
    cursor (self s) = Some c ->
    conn (self s) = Some h ->
    let (r, s') := disconnect s in
    r = inr tt
    /\ trace (proc s')
       = (trace (proc s) ++ [EvCloseCursor (cur_id c); EvCloseConn h])%list
    /\ ~ In (cur_id c) (live (proc s'))
    /\ ~ In h (live (proc s'))
    /\ connected s' = false
    /\ db (proc s') = db (proc s)
    /\ live (proc (snd (disconnect s'))) = live (proc s').
Proof.
  intros s c h Hcur Hconn.
  unfold disconnect, bind, in_proc, cursor_close, conn_close, connected,
    cursor_open. rewrite Hcur. simpl. rewrite Hconn. simpl.
  rewrite ?Hcur, ?Hconn. simpl.
  assert (Hc : ~ In (cur_id c) (removen h (removen (cur_id c) (live (proc s))))).
  { apply (proj2 (not_in_removen (cur_id c) h _)).
    apply (proj1 (not_in_removen (cur_id c) (cur_id c) _)). }
  assert (Hh : ~ In h (removen h (removen (cur_id c) (live (proc s)))))
    by apply (proj1 (not_in_removen h h _)).
  repeat split; auto.
  - rewrite <- app_assoc. reflexivity.
  - destruct (memn (cur_id c) (removen h (removen (cur_id c) (live (proc s)))))
      eqn:E; [|reflexivity].
    apply memn_In in E. contradiction.
  - rewrite Hconn. simpl.
    rewrite (@removen_absent _ _ Hc), (@removen_absent _ _ Hh). reflexivity.
Qed.

Lemma disconnect_closes_cursor_then_connection_witness :
  cursor (self (session empty_db)) = Some (Cursor 1 0 RealDictCursor None)
  /\ conn (self (session empty_db)) = Some 0
  /\ fst (disconnect (session empty_db)) = inr tt
  /\ connected (snd (disconnect (session empty_db))) = false.
Proof.
  split; [reflexivity|]. split; [reflexivity|].
  pose proof (disconnect_closes_cursor_then_connection
                (session empty_db) eq_refl eq_refl) as H.
  destruct (disconnect (session empty_db)) as [r s'].
  destruct H as (H1 & _ & _ & _ & H2 & _). split; assumption.
Defined.

(** ** The constructor when it succeeds *)



(** ** Methods used out of turn *)

(** A method that sends statements, called on an object that never
    connected, raises the [AttributeError] of [None.execute] at its
    first statement: nothing is sent and the database is as it was. *)
Theorem methods_refuse_unconnected :
  forall (drv : driver) (s : state),
    cursor (self s) = None ->
    refuses_unconnected (drop_existing_schema drv) s
    /\ refuses_unconnected (create_enums drv) s
    /\ refuses_unconnected (create_tables drv) s
    /\ refuses_unconnected (create_indexes drv) s
    /\ refuses_unconnected (seed_progression_steps drv) s
    /\ refuses_unconnected (seed_badges drv) s
    /\ refuses_unconnected (verify_setup drv) s.
Proof.
  intros drv s H. unfold refuses_unconnected.
  repeat split;
    unfold drop_existing_schema, create_enums, create_tables, create_indexes,
      seed_progression_steps, seed_badges, verify_setup;
    simpl; unfold bind, print, in_proc, print_p, cursor_execute; simpl;
    rewrite H; reflexivity.
Qed.

Lemma methods_refuse_unconnected_witness :
  cursor (self (fresh empty_db)) = None
  /\ refuses_unconnected (create_tables (postgres true)) (fresh empty_db).
Proof.
  split; [reflexivity|].
  apply (methods_refuse_unconnected (postgres true) (fresh empty_db) eq_refl).
Defined.



(** ** On PostgreSQL: running again, and resetting first *)









(** ** [verify_setup] over the cursor [connect] makes *)

Lemma has_table_lookup :
  forall (t : string) (d : Pg.database),
    has_table t d = true <-> exists tb, lookup t (db_tables d) = Some tb.
Proof.
  intros t d. unfold has_table.
  induction (db_tables d) as [|[k v] l IH]; simpl.
  - split; [discriminate | intros (tb & H); discriminate].
  - destruct (String.eqb t k); simpl; [split; eauto | exact IH].
Qed.

(** Over a [RealDictCursor], the cursor [connect] makes, [verify_setup]
    never gets past its first table: when [users] exists the count is
    fetched as a dict and [row[0]] raises [KeyError], after the one
    SELECT and the opening line; when [users] does not exist the SELECT
    itself fails.  No count is printed in either case. *)
Theorem verify_setup_stops_at_first_count :
  forall (up : bool) (s : state) (c : pgcursor),
    cursor (self s) = Some c ->
    cursor_open c (proc s) = true ->
    cur_factory c = RealDictCursor ->
    let (r, s') := verify_setup (postgres up) s in
    stdout (proc s') = (stdout (proc s) ++ ["Verifying database setup..."])%list
    /\ (has_table "users" (db (proc s)) = true ->
        r = inl (KeyError "0")
        /\ trace (proc s')
           = (trace (proc s) ++ [EvExecute (SelectCount "users") true])%list)
    /\ (has_table "users" (db (proc s)) = false ->
        r = inl (Psycopg2Error "relation users does not exist")
        /\ trace (proc s')
           = (trace (proc s) ++ [EvExecute (SelectCount "users") false])%list).
Proof.
  intros up s c Hcur Hopen Hf.
  unfold verify_setup, verify_tables. cbn [for_each].
  unfold bind, print, in_proc, print_p, cursor_execute, fetchone, lift.
  unfold cursor_open in *. simpl. rewrite Hcur, Hopen. simpl.
  unfold select_count.
  destruct (lookup "users" (db_tables (db (proc s)))) as [tb|] eqn:El; simpl.
  - rewrite Hopen, Hf. simpl. split; [reflexivity|]. split.
    + intros _. split; reflexivity.
    + intros H. apply not_true_iff_false in H. exfalso. apply H.
      apply has_table_lookup. eauto.
  - split; [reflexivity|]. split.
    + intros H. apply has_table_lookup in H. destruct H as (tb & H).
      rewrite El in H. discriminate.
    + intros _. split; reflexivity.
Qed.

Lemma verify_setup_stops_at_first_count_witness :
  cursor (self (session curriculum_db)) = Some (Cursor 1 0 RealDictCursor None)
  /\ cursor_open (Cursor 1 0 RealDictCursor None) (proc (session curriculum_db))
     = true
  /\ has_table "users" (db (proc (session curriculum_db))) = true
  /\ fst (verify_setup (postgres true) (session curriculum_db))
     = inl (KeyError "0").
Proof.
  split; [reflexivity|]. split; [reflexivity|]. split; [reflexivity|].
  pose proof (verify_setup_stops_at_first_count
                true (session curriculum_db) eq_refl eq_refl eq_refl) as H.
  destruct (verify_setup (postgres true) (session curriculum_db)) as [r s'].
  destruct H as (_ & H & _). exact (proj1 (H eq_refl)).
Defined.

(** ** Profiles need their user row *)

Lemma mentor_profile_orphan :
  forall (d : Pg.database) (user_id : string),
    mentors_as_created d ->
    no_user d user_id = true ->
    exists msg,
      Pg.execute (mentor_profile user_id) d = inl (Psycopg2Error msg).
Proof.
  intros d uid (rows & Hm) Hno. unfold mentor_profile. cbn [Pg.execute].
  unfold insert. rewrite Hm.
  assert (Hfill :
            exists r,
              fill (t_cols (Table (table_cols mentors_ddl) rows))
                   (combine mentor_cols
                            (map eval_expr
                                 [ Param (VText uid);
                                   Param (VText "AFF-I, Tandem, Coach");
                                   Param (VText "C-12345");
                                   Param (VText (json_array
                                                   ["AFF"; "Tandem"; "Coaching"]));
                                   Param (VInt 3); Param (VInt 85);
                                   Param (VBool true) ]))
                   (db_serial d) = (r, db_serial d)
              /\ field "id" r = VText uid).
  { eexists. split; reflexivity. }
  destruct Hfill as (r & Hfill & Hid). rewrite Hfill.
  assert (Hfk : forallb (fk_ok d r) (t_cols (Table (table_cols mentors_ddl) rows))
                = false).
  { cbn [t_cols table_cols mentors_ddl forallb].
    unfold fk_ok at 1. cbn [cname cconstrs references_of forallb fst snd].
    rewrite Hid. cbn [is_null orb].
    unfold no_user, rows_of in Hno.
    destruct (lookup "users" (db_tables d)) as [tb|].
    - apply negb_true_iff in Hno. rewrite Hno. reflexivity.
    - reflexivity. }
  rewrite Hfk. cbn [negb]. unfold err.
  repeat match goal with
         | |- context [if ?b then _ else _] => destruct b
         end; cbv beta iota; eauto.
Qed.

(** A mentor profile cannot be seeded for an account that has no row in
    [users]: on PostgreSQL, with the table [mentors] as [create_tables]
    declares it, the first INSERT of [seed_profiles] is refused (its
    [id] references [users]), [seed_profiles] raises, and the database
    is as it was. *)
Theorem seed_profiles_needs_the_user_row :
  forall (up : bool) (user_ids : list (string * string)) (user_id : string)
         (s : state),
    connected s = true ->
    lookup "mentor" user_ids = Some user_id ->
    mentors_as_created (db (proc s)) ->
    no_user (db (proc s)) user_id = true ->
    let (r, s') := seed_profiles (postgres up) user_ids s in
    (exists msg, r = inl (Psycopg2Error msg))
    /\ db (proc s') = db (proc s)
    /\ trace (proc s')
       = (trace (proc s) ++ [EvExecute (mentor_profile user_id) false])%list.
Proof.
  intros up ids uid s Hc Hl Hm Hno.
  destruct (@mentor_profile_orphan (db (proc s)) uid Hm Hno) as (msg & Hex).
  unfold seed_profiles, bind, getitem. rewrite print_run, Hl.
  unfold ret at 1. cbv beta iota.
  set (s0 := St (self s) (set_stdout (stdout (proc s)
                                        ++ ["Creating user profiles..."])
                                     (proc s))).
  assert (Hc0 : connected s0 = true) by exact Hc.
  destruct (cursor_execute_postgres up (mentor_profile uid) s0 Hc0)
    as (s1 & ev & Hrun & Hadv & Hev).
  change (db (proc s0)) with (db (proc s)) in *.
  change (trace (proc s0)) with (trace (proc s)) in *.
  unfold apply_all, reach in Hrun, Hadv. rewrite Hex in Hrun, Hadv, Hev.
  fold (mentor_profile uid). rewrite Hrun. simpl.
  destruct Hadv as (_ & _ & _ & _ & Ht & Hd). subst ev.
  split; [eauto|]. split; assumption.
Qed.

Lemma seed_profiles_needs_the_user_row_witness :
  connected (session schema_db) = true
  /\ lookup "mentor" [("mentor", "uuid4-0")] = Some "uuid4-0"
  /\ mentors_as_created (db (proc (session schema_db)))
  /\ no_user (db (proc (session schema_db))) "uuid4-0" = true
  /\ exists msg,
      fst (seed_profiles (postgres true) [("mentor", "uuid4-0")]
                         (session schema_db))
      = inl (Psycopg2Error msg).
Proof.
  assert (Hm : mentors_as_created (db (proc (session schema_db))))
    by (exists []; reflexivity).
  split; [reflexivity|]. split; [reflexivity|]. split; [exact Hm|].
  split; [reflexivity|].
  pose proof (seed_profiles_needs_the_user_row
                true [("mentor", "uuid4-0")] (session schema_db)
                eq_refl eq_refl Hm eq_refl) as H.
  destruct (seed_profiles (postgres true) [("mentor", "uuid4-0")]
                          (session schema_db)) as [r s'].
  destruct H as [H _]. exact H.
Defined.

(** ** Every statement is committed on its own *)

Lemma create_type_taken :
  forall (n : string) (labels : list string) (d : Pg.database),
    ident_ok n = true -> has_type n d = true ->
    Pg.execute (CreateTypeEnum n labels) d
    = inl (Psycopg2Error ("type " ++ n ++ " already exists")).
Proof.
  intros n labels d Hi Ht. unfold has_type in Ht. simpl. unfold create_type.
  rewrite Hi, Ht. reflexivity.
Qed.

(** [create_enums] is not atomic: when [role] is free and [status]
    exists already, it creates [role], fails at [status] with the error
    that the type already exists, and the new type [role] stays in the
    catalog. *)
Theorem create_enums_keeps_what_it_created :
  forall (up : bool) (s : state),
    connected s = true ->
    has_type "role" (db (proc s)) = false ->
    has_table "role" (db (proc s)) = false ->
    has_type "status" (db (proc s)) = true ->
    exists s',
      create_enums (postgres up) s
      = (inl (Psycopg2Error "type status already exists"), s')
      /\ db_types (db (proc s'))
         = (db_types (db (proc s)) ++ [("role", ["mentor"; "mentee"; "admin"])])%list
      /\ db_tables (db (proc s')) = db_tables (db (proc s)).
Proof.
  intros up s Hc Hr Hb Hs. rewrite create_enums_block.
  destruct (run_block up "Creating enums..." "✓ Enums created"
                      enum_stmts s Hc)
    as (s' & evs & Hrun & Hadv & _).
  assert (Ha : apply_all enum_stmts (db (proc s))
               = inl (Psycopg2Error "type status already exists")
               /\ reach enum_stmts (db (proc s))
                  = Db (db_types (db (proc s))
                          ++ [("role", ["mentor"; "mentee"; "admin"])])
                       (db_tables (db (proc s))) (db_indexes (db (proc s)))
                       (db_serial (db (proc s)))).
  { unfold enum_stmts, enums, apply_all, reach. cbn [map fst snd].
    rewrite create_type_fresh by (reflexivity || assumption).
    rewrite create_type_taken
      by (try reflexivity; rewrite has_type_added, Hs; reflexivity).
    split; reflexivity. }
  destruct Ha as [Ha Hreach]. rewrite Ha in Hrun. rewrite Hreach in Hadv.
  exists s'. split; [exact Hrun|].
  destruct Hadv as (_ & _ & _ & _ & _ & Hd). rewrite Hd. split; reflexivity.
Qed.

Lemma create_enums_keeps_what_it_created_witness :
  connected (session half_provisioned_db) = true
  /\ has_type "status" (db (proc (session half_provisioned_db))) = true
  /\ exists s',
      create_enums (postgres true) (session half_provisioned_db)
      = (inl (Psycopg2Error "type status already exists"), s')
      /\ has_type "role" (db (proc s')) = true.
Proof.
  split; [reflexivity|]. split; [reflexivity|].
  destruct (create_enums_keeps_what_it_created
              true (session half_provisioned_db) eq_refl eq_refl eq_refl eq_refl)
    as (s' & H1 & H2 & _).
  exists s'. split; [exact H1|]. unfold has_type. rewrite H2. reflexivity.
Defined.









